(** * Disclose Framework agent tool: a shallow embedding of [disclose_tool.py]

    The development follows [examples/agent-integration/disclose_tool.py]:
    the string helpers the module relies on, the parsed-JSON value domain,
    [_extract_signals], [fetch_signals], [DiscloseSignals.score],
    [_format_value], [DiscloseSignals.summary] and [handle_tool_call], then
    the callers: the command-line demo of the module and the agent loop of
    [examples/agent-integration/example_agent.py].

    Python [str] values are modelled as [string] (the UTF-8 bytes of the
    text): every string operation the module performs uses ASCII patterns,
    for which the byte-level and the code-point-level readings coincide.
    Python [float] values are IEEE 754 binary64 numbers, modelled by the
    kernel's primitive floats. *)

From Stdlib Require Import ZArith List Bool Ascii String Lia.
From Stdlib Require Import Numbers.DecimalString.
From Stdlib Require Import Floats.PrimFloat Floats.SpecFloat Floats.FloatOps.
Import ListNotations.

Local Open Scope string_scope.

(* Decimal float literals denote the nearest binary64 value, as in Python. *)
Set Warnings "-inexact-float,-register-all".

(* ------------------------------------------------------------------ *)
(** ** Python string methods used by the module *)

Module PyStr.

(** [s[n:]] *)
Fixpoint drop (n : nat) (s : string) : string :=
  match n, s with
  | O, _ => s
  | S _, EmptyString => EmptyString
  | S k, String _ t => drop k t
  end.

(** [s.startswith(p)] *)
Definition startswith (s p : string) : bool := String.prefix p s.

(** [s.removeprefix(p)]: drops [p] once when [s] starts with it. *)
Definition removeprefix (s p : string) : string :=
  if startswith s p then drop (String.length p) s else s.

(** [s.rstrip(c)] for a one-character argument: every trailing [c] goes. *)
Fixpoint rstrip (c : ascii) (s : string) : string :=
  match s with
  | EmptyString => EmptyString
  | String a t =>
      match rstrip c t with
      | EmptyString => if Ascii.eqb a c then EmptyString else String a EmptyString
      | t' => String a t'
      end
  end.

(** [s.endswith(c)] for a one-character argument. *)
Fixpoint endswith (s : string) (c : ascii) : bool :=
  match s with
  | EmptyString => false
  | String a EmptyString => Ascii.eqb a c
  | String _ t => endswith t c
  end.

(** [s[:-1]] *)
Fixpoint drop_last (s : string) : string :=
  match s with
  | EmptyString => EmptyString
  | String _ EmptyString => EmptyString
  | String a t => String a (drop_last t)
  end.

(** [c * n] *)
Fixpoint repeat (c : ascii) (n : nat) : string :=
  match n with
  | O => EmptyString
  | S k => String c (repeat c k)
  end.

(** [p in s]: substring test. *)
Fixpoint contains (s p : string) : bool :=
  startswith s p ||
  match s with
  | EmptyString => false
  | String _ t => contains t p
  end.

(** [s.replace(old, "")] for a non-empty [old]: the non-overlapping
    occurrences of [old] are removed, scanning from the left.  The scan is
    structural on [s]; [skip] counts the characters of a match still to be
    dropped. *)
Fixpoint remove_all_aux (old : string) (skip : nat) (s : string) : string :=
  match s with
  | EmptyString => EmptyString
  | String a t =>
      match skip with
      | S k => remove_all_aux old k t
      | O =>
          if startswith s old
          then remove_all_aux old (Nat.pred (String.length old)) t
          else String a (remove_all_aux old O t)
      end
  end.

Definition remove_all (s old : string) : string :=
  match old with
  | EmptyString => s
  | _ => remove_all_aux old O s
  end.

End PyStr.

(* ------------------------------------------------------------------ *)
(** ** Domain normalisation and the target URL ([fetch_signals], first two
       statements) *)

Definition WELL_KNOWN_PATH : string := "/.well-known/disclose.json".

(** [merchant_domain.rstrip("/").removeprefix("https://").removeprefix("http://")] *)
Definition normalize_domain (merchant_domain : string) : string :=
  PyStr.removeprefix
    (PyStr.removeprefix (PyStr.rstrip "/" merchant_domain) "https://")
    "http://".

(** [f"https://{domain}{WELL_KNOWN_PATH}"] *)
Definition target_url (merchant_domain : string) : string :=
  "https://" ++ normalize_domain merchant_domain ++ WELL_KNOWN_PATH.

(** The specification's wording, kept apart from the code: one scheme
    prefix and one trailing slash are removed, each exactly once. *)
Definition strip_scheme_once (d : string) : string :=
  if PyStr.startswith d "https://" then PyStr.drop 8 d
  else if PyStr.startswith d "http://" then PyStr.drop 7 d
  else d.

Definition strip_slash_once (d : string) : string :=
  if PyStr.endswith d "/" then PyStr.drop_last d else d.

Definition strip_exactly_once (d : string) : string :=
  strip_slash_once (strip_scheme_once d).

(* ------------------------------------------------------------------ *)
(** ** Exceptions and the error monad *)

(** The built-in exceptions the modelled statements can raise to their
    caller (inside the [try] block of [fetch_signals] every exception is
    caught). *)
Inductive exn : Type :=
| AttributeError
| TypeError
| ValueError
| OverflowError
| KeyError.

(** A call either returns a value or raises to its caller. *)
Inductive result (A : Type) : Type :=
| Ok (a : A)
| Raise (e : exn).

Arguments Ok {A} a.
Arguments Raise {A} e.

Definition bind {A B : Type} (m : result A) (k : A -> result B) : result B :=
  match m with
  | Ok a => k a
  | Raise e => Raise e
  end.

Notation "x <- m ;; k" := (bind m (fun x => k))
  (at level 61, m at next level, right associativity).

(* ------------------------------------------------------------------ *)
(** ** Values produced by [json.loads] *)

(** [None], [bool], [int], [float], [str], [list] and [dict].  A [dict] is
    kept as the list of its items in insertion order, which is the order
    [items()] iterates in. *)
Inductive json : Type :=
| JNull
| JBool (b : bool)
| JInt (z : Z)
| JFloat (f : float)
| JStr (s : string)
| JArr (l : list json)
| JObj (d : list (string * json)).

Definition dict : Type := list (string * json).

(** [d.get(k)], with [None] of [option] for a missing key. *)
Fixpoint dict_get (k : string) (d : dict) : option json :=
  match d with
  | [] => None
  | (k', v) :: t => if String.eqb k k' then Some v else dict_get k t
  end.

(** [d[k] = v]: an existing key keeps its position, a new key goes last. *)
Fixpoint dict_set (k : string) (v : json) (d : dict) : dict :=
  match d with
  | [] => [(k, v)]
  | (k', v') :: t =>
      if String.eqb k k' then (k, v) :: t else (k', v') :: dict_set k v t
  end.

Definition dict_keys (d : dict) : list string := map fst d.

(** The keys of a [dict] are pairwise distinct. *)
Definition unique_keys (d : dict) : Prop := NoDup (dict_keys d).

(** [bool(v)] *)
Definition truthy (v : json) : bool :=
  match v with
  | JNull => false
  | JBool b => b
  | JInt z => negb (Z.eqb z 0)
  | JFloat f => negb (PrimFloat.eqb f 0%float)
  | JStr s => negb (String.eqb s "")
  | JArr l => match l with [] => false | _ => true end
  | JObj d => match d with [] => false | _ => true end
  end.

(** [v.items()]: only a [dict] has the method. *)
Definition py_items (v : json) : result dict :=
  match v with
  | JObj d => Ok d
  | _ => Raise AttributeError
  end.

(** [v.get(k, default)]: only a [dict] has the method. *)
Definition py_get (v : json) (k : string) (default : json) : result json :=
  match v with
  | JObj d => Ok (match dict_get k d with Some x => x | None => default end)
  | _ => Raise AttributeError
  end.

(** The characters of a string, as one-character strings. *)
Fixpoint chars (s : string) : list json :=
  match s with
  | EmptyString => []
  | String a t => JStr (String a EmptyString) :: chars t
  end.

(** [for node in v]: a list yields its elements, a string its characters,
    a dict its keys; no other JSON value is iterable. *)
Definition py_iter (v : json) : result (list json) :=
  match v with
  | JArr l => Ok l
  | JStr s => Ok (chars s)
  | JObj d => Ok (map (fun kv => JStr (fst kv)) d)
  | _ => Raise TypeError
  end.

(** [k == x] for a string [k]: only an equal string compares equal. *)
Definition str_eq (k : string) (x : json) : bool :=
  match x with
  | JStr s => String.eqb k s
  | _ => false
  end.

(** [k in v] for a string [k]. *)
Definition py_contains (v : json) (k : string) : result bool :=
  match v with
  | JArr l => Ok (existsb (str_eq k) l)
  | JStr s => Ok (PyStr.contains s k)
  | JObj d => Ok (existsb (String.eqb k) (dict_keys d))
  | _ => Raise TypeError
  end.

(* ------------------------------------------------------------------ *)
(** ** [_extract_signals] *)

(** One pass of
    [for k, v in items: if k.startswith("disclose:"): signals[k] = v]. *)
Definition collect (items : dict) (signals : dict) : dict :=
  fold_left
    (fun acc kv =>
       if PyStr.startswith (fst kv) "disclose:"
       then dict_set (fst kv) (snd kv) acc
       else acc)
    items signals.

(** The body of the loop over [raw.get("@graph", [])]. *)
Definition collect_node (signals : dict) (node : json) : dict :=
  match node with
  | JObj d => collect d signals
  | _ => signals
  end.

Definition _extract_signals (raw : json) : result dict :=
  root <- py_items raw ;;
  let signals := collect root [] in
  graph <- py_get raw "@graph" (JArr []) ;;
  nodes <- py_iter graph ;;
  Ok (fold_left collect_node nodes signals).

(* ------------------------------------------------------------------ *)
(** ** [DiscloseSignals] and [fetch_signals] *)

Record DiscloseSignals : Type := mkDiscloseSignals {
  merchant_domain : string;
  raw : json;
  signals : dict;              (* default_factory=dict *)
  verifier : json;             (* default None *)
  verified_at : json;          (* default None *)
  error : option string        (* default None *)
}.

(** [DiscloseSignals(merchant_domain=domain, raw={}, error=msg)] *)
Definition failed (domain msg : string) : DiscloseSignals :=
  {| merchant_domain := domain; raw := JObj []; signals := [];
     verifier := JNull; verified_at := JNull; error := Some msg |}.

(** What the [try] block of [fetch_signals] ends in: one of the four
    [except] clauses, or the document [json.loads] returned. *)
Inductive outcome : Type :=
| HTTPError (code : Z)               (* e.code *)
| URLError (reason : string)         (* str(e.reason) *)
| JSONDecodeError
| OtherException (text : string)     (* str(e) *)
| Loaded (document : json).

(** The network, as seen by [urlopen]: the outcome of a GET of a URL. *)
Definition network : Type := string -> outcome.

(** A call together with the URLs it opened, in order. *)
Definition io (A : Type) : Type := (list string * result A)%type.

Definition str_of_int (z : Z) : string :=
  DecimalString.NilZero.string_of_int (Z.to_int z).

(** [{k: v for k, v in items if k in wanted}], built item by item. *)
Fixpoint comprehension (wanted : json) (items : dict) (acc : dict)
  : result dict :=
  match items with
  | [] => Ok acc
  | (k, v) :: t =>
      keep <- py_contains wanted k ;;
      comprehension wanted t (if keep then dict_set k v acc else acc)
  end.

(** [{...} if signals else all_signals] *)
Definition filter_signals (wanted : json) (all_signals : dict) : result dict :=
  if truthy wanted then comprehension wanted all_signals [] else Ok all_signals.

(** [raw.get("disclose:verifier", {}).get("@id") or raw.get("disclose:verifier")] *)
Definition read_verifier (raw : json) : result json :=
  v <- py_get raw "disclose:verifier" (JObj []) ;;
  id <- py_get v "@id" JNull ;;
  if truthy id then Ok id else py_get raw "disclose:verifier" JNull.

(** The statements of [fetch_signals] after the [try] block. *)
Definition parse_signals (domain : string) (wanted : json) (raw : json)
  : result DiscloseSignals :=
  all_signals <- _extract_signals raw ;;
  filtered <- filter_signals wanted all_signals ;;
  ver <- read_verifier raw ;;
  at_ <- py_get raw "disclose:verified_at" JNull ;;
  Ok {| merchant_domain := domain; raw := raw; signals := filtered;
        verifier := ver; verified_at := at_; error := None |}.

(** [fetch_signals(merchant_domain, signals)]; [signals=None] is [JNull]. *)
Definition fetch_signals (net : network) (merchant_domain : string)
    (signals : json) : io DiscloseSignals :=
  let domain := normalize_domain merchant_domain in
  let url := "https://" ++ domain ++ WELL_KNOWN_PATH in
  ([url],
   match net url with
   | HTTPError code =>
       Ok (failed domain
             ("HTTP " ++ str_of_int code
                ++ ": merchant may not support Disclose Framework"))
   | URLError reason => Ok (failed domain reason)
   | JSONDecodeError => Ok (failed domain "Invalid JSON at endpoint")
   | OtherException text => Ok (failed domain text)
   | Loaded raw => parse_signals domain signals raw
   end).

(* ------------------------------------------------------------------ *)
(** ** Python's [float]: conversion, formatting and rounding

    A finite non-zero float is [(-1)^s * m * 2^e] for the sign, mantissa
    and exponent [Prim2SF] returns; the decimal conversions below are exact
    computations on these integers. *)

Module PyFloat.

(** The nearest integer to [p / q] ([0 <= p], [0 < q]), ties to even. *)
Definition round_half_even (p q : Z) : Z :=
  let d := (p / q)%Z in
  match (2 * (p mod q) ?= q)%Z with
  | Lt => d
  | Gt => (d + 1)%Z
  | Eq => if Z.even d then d else (d + 1)%Z
  end.

(** [m * 2^e * 10^n] rounded to an integer, ties to even. *)
Definition scaled (m : positive) (e : Z) (n : nat) : Z :=
  round_half_even (Zpos m * 10 ^ Z.of_nat n * 2 ^ Z.max e 0) (2 ^ Z.max (- e) 0).

Definition sign_str (s : bool) : string := if s then "-" else "".

(** The decimal digits of [z], left-padded with zeros to [n] digits. *)
Definition zero_padded (z : Z) (n : nat) : string :=
  let s := DecimalString.NilZero.string_of_int (Z.to_int z) in
  PyStr.repeat "0" (n - String.length s) ++ s.

(** The integer [v], read as a count of [10^-n], in fixed-point notation. *)
Definition fixed (v : Z) (n : nat) : string :=
  let unit := (10 ^ Z.of_nat n)%Z in
  zero_padded (v / unit) 1
    ++ match n with
       | O => ""
       | _ => "." ++ zero_padded (v mod unit) n
       end.

(** [format(x, ".<n>f")]: the exact value of [x] correctly rounded to [n]
    decimal places. *)
Definition format_f (n : nat) (x : float) : string :=
  match Prim2SF x with
  | S754_nan => "nan"
  | S754_infinity s => sign_str s ++ "inf"
  | S754_zero s => sign_str s ++ fixed 0 n
  | S754_finite s m e => sign_str s ++ fixed (scaled m e n) n
  end.

(** The nearest float to [(-1)^s * v / 10^n] for an integer [0 <= v]. *)
Definition of_decimal (s : bool) (v : Z) (n : nat) : float :=
  let num := match v with
             | Zpos k => S754_finite s k 0
             | _ => S754_zero s
             end in
  SF2Prim (SFdiv prec emax num (S754_finite false (Z.to_pos (10 ^ Z.of_nat n)) 0)).

(** [round(x, n)] for [0 <= n]: [x] correctly rounded to [n] decimal places
    and read back as the nearest float; nan, infinities and zeros round to
    themselves. *)
Definition round (x : float) (n : nat) : float :=
  match Prim2SF x with
  | S754_finite s m e => of_decimal s (scaled m e n) n
  | _ => x
  end.

(** [float(z)] for an [int]: the nearest float, ties to even;
    [OverflowError] when that is beyond the largest finite float. *)
Definition of_int (z : Z) : result float :=
  match binary_normalize prec emax z 0 false with
  | S754_infinity _ => Raise OverflowError
  | sf => Ok (SF2Prim sf)
  end.

(** *** [repr(x)]

    The shortest decimal string that reads back as [x], and among those
    the one nearest to [x]: a decimal [c * 10^k] reads back as the float
    [m * 2^e] when it lies within half a unit in the last place of it, the
    end points included when [m] is even (ties go to the even mantissa).
    Below the smallest mantissa of a binade the gap to the previous float
    is half as wide.  All comparisons are made in units of [2^(e-2)]. *)

(** The decimal [c * 10^k] nearest to [m * 2^e] among those reading back
    as it, when there is one with this [k]. *)
Definition candidate (m : positive) (e k : Z) : option Z :=
  let den := (2 ^ Z.max (2 - e) 0 * 10 ^ Z.max k 0)%Z in
  let scale := (2 ^ Z.max (e - 2) 0 * 10 ^ Z.max (- k) 0)%Z in
  let narrow := (Pos.eqb m (2 ^ 52) && (-1074 <? e)%Z)%bool in
  let lo := ((4 * Zpos m - (if narrow then 1 else 2)) * scale)%Z in
  let hi := ((4 * Zpos m + 2) * scale)%Z in
  let closed := Z.even (Zpos m) in
  let cmin := if closed then ((lo + den - 1) / den)%Z else (lo / den + 1)%Z in
  let cmax := if closed then (hi / den)%Z else ((hi - 1) / den)%Z in
  if (cmin <=? cmax)%Z
  then Some (Z.min cmax (Z.max cmin (round_half_even (4 * Zpos m * scale) den)))
  else None.

(** The search for the largest [k] with a candidate, downwards from [k]. *)
Fixpoint shortest (fuel : nat) (m : positive) (e k : Z) : Z * Z :=
  match candidate m e k with
  | Some c => (c, k)
  | None =>
      match fuel with
      | O => (0%Z, k)
      | S f => shortest f m e (k - 1)
      end
  end.

(** A power of ten above [m * 2^e] and its neighbours: [10^k > 2^bits]
    for [k > bits * log10 2]. *)
Definition start_exponent (m : positive) (e : Z) : Z :=
  ((Z.log2 (Zpos m) + e + 2) * 30103 / 100000 + 2)%Z.

(** The digits [c] with decimal exponent [k], laid out as [repr] does.
    [decpt] is the position of the decimal point counted from the first
    digit; scientific notation is used when [decpt > 16] or [decpt <= -4]
    ([1e+16], [1e-05]), positional notation otherwise ([0.0001], [4.5],
    [100.0]). *)
Definition layout (c k : Z) : string :=
  let digits := DecimalString.NilZero.string_of_int (Z.to_int c) in
  let n := String.length digits in
  let decpt := (Z.of_nat n + k)%Z in
  if ((decpt <=? -4) || (16 <? decpt))%Z%bool then
    String.substring 0 1 digits
      ++ (if Nat.ltb 1 n then "." ++ PyStr.drop 1 digits else "")
      ++ "e" ++ (if (decpt - 1 <? 0)%Z then "-" else "+")
      ++ zero_padded (Z.abs (decpt - 1)) 2
  else if (decpt <=? 0)%Z then
    "0." ++ PyStr.repeat "0" (Z.to_nat (- decpt)) ++ digits
  else if (Z.of_nat n <=? decpt)%Z then
    digits ++ PyStr.repeat "0" (Z.to_nat decpt - n) ++ ".0"
  else
    String.substring 0 (Z.to_nat decpt) digits
      ++ "." ++ PyStr.drop (Z.to_nat decpt) digits.

Definition repr (x : float) : string :=
  match Prim2SF x with
  | S754_nan => "nan"
  | S754_infinity s => sign_str s ++ "inf"
  | S754_zero s => sign_str s ++ "0.0"
  | S754_finite s m e =>
      let (c, k) := shortest 24 m e (start_exponent m e) in
      sign_str s ++ layout c k
  end.

End PyFloat.

(* ------------------------------------------------------------------ *)
(** ** [score], [_format_value], [summary] and [handle_tool_call] *)

Local Open Scope float_scope.

Section Interpreter.

(** Two services of the interpreter are left abstract: the parser behind
    [float(s)] for a string [s] ([None] stands for [ValueError]), and the
    [str()] of a list or dict (the [repr] of nested strings depends on
    the interpreter's character tables). *)
Variable float_of_str : string -> option float.
Variable str_of_container : json -> string.

(** [float(v)] *)
Definition py_float (v : json) : result float :=
  match v with
  | JBool b => Ok (if b then 1 else 0)
  | JInt z => PyFloat.of_int z
  | JFloat f => Ok f
  | JStr s =>
      match float_of_str s with
      | Some f => Ok f
      | None => Raise ValueError
      end
  | JNull | JArr _ | JObj _ => Raise TypeError
  end.

(** [str(v)], which is also [format(v, "")].  The interpreter refuses to
    print an integer of more than 4300 digits ([ValueError]); the model
    prints every integer, and is exact on the values [json.loads] returns,
    which never hold such an integer ([printable] below). *)
Definition py_str (v : json) : string :=
  match v with
  | JNull => "None"
  | JBool b => if b then "True" else "False"
  | JInt z => str_of_int z
  | JFloat f => PyFloat.repr f
  | JStr s => s
  | JArr _ | JObj _ => str_of_container v
  end.

(** The [weights] table of [score]: key, then (max_value, weight). *)
Definition weights : list (string * (float * float)) :=
  [ ("disclose:review_rating", (5.0, 0.35));
    ("disclose:return_rate", (1.0, -0.25));
    ("disclose:dispute_rate", (1.0, -0.20));
    ("disclose:fulfillment_days_p50", (30.0, -0.20)) ].

(** One iteration of the loop of [score] on the accumulators
    [(score, total_weight)]. *)
Definition score_step (signals : dict) (acc : float * float)
    (entry : string * (float * float)) : result (float * float) :=
  let '(key, (max_val, w)) := entry in
  let '(score, total_weight) := acc in
  match dict_get key signals with
  | None | Some JNull => Ok acc                      (* val is None: continue *)
  | Some val =>
      x <- py_float val ;;
      let normalized := x / max_val in
      let score :=
        if w <? 0
        then score + abs w * (1 - normalized)
        else score + w * normalized in
      Ok (score, total_weight + abs w)
  end.

Fixpoint score_loop (signals : dict) (entries : list (string * (float * float)))
    (acc : float * float) : result (float * float) :=
  match entries with
  | [] => Ok acc
  | entry :: rest =>
      acc' <- score_step signals acc entry ;;
      score_loop signals rest acc'
  end.

(** [DiscloseSignals.score]; [None] is the "insufficient data" outcome. *)
Definition score (self : DiscloseSignals) : result (option float) :=
  acc <- score_loop (signals self) weights (0, 0) ;;
  let '(score, total_weight) := acc in
  Ok (if 0 <? total_weight
      then Some (PyFloat.round (score / total_weight) 3)
      else None).

Local Close Scope float_scope.

Definition _format_value (key : string) (value : json) : result string :=
  if String.eqb key "return_rate" then
    x <- py_float value ;;
    Ok (PyFloat.format_f 1 (x * 100)%float ++ "%")
  else if String.eqb key "dispute_rate" then
    x <- py_float value ;;
    Ok (PyFloat.format_f 2 (x * 100)%float ++ "%")
  else if String.eqb key "review_rating" then
    Ok (py_str value ++ "/5.0")
  else if PyStr.contains key "days" then
    Ok (py_str value ++ " days")
  else
    Ok (py_str value).

Definition newline : string := String (ascii_of_nat 10) EmptyString.

(** The lines of the loop [for key, value in self.signals.items()]. *)
Fixpoint signal_lines (items : dict) : result (list string) :=
  match items with
  | [] => Ok []
  | (key, value) :: rest =>
      let short_key := PyStr.remove_all key "disclose:" in
      text <- _format_value short_key value ;;
      lines <- signal_lines rest ;;
      Ok (("  " ++ short_key ++ ": " ++ text) :: lines)
  end.

(** [DiscloseSignals.summary] *)
Definition summary (self : DiscloseSignals) : result string :=
  match error self with
  | Some (String a e) =>
      Ok ("[Disclose] Could not retrieve signals for "
            ++ merchant_domain self ++ ": " ++ String a e)
  | _ =>
      let header := "[Disclose signals for " ++ merchant_domain self ++ "]" in
      let attribution :=
        if truthy (verifier self)
        then [ "  Verified by: " ++ py_str (verifier self) ++ " at "
                 ++ (if truthy (verified_at self)
                     then py_str (verified_at self)
                     else "unknown time") ]
        else [] in
      lines <- signal_lines (signals self) ;;
      let nothing :=
        match signals self with
        | [] => ["  No signals published."]
        | _ => []
        end in
      Ok (String.concat newline (header :: attribution ++ lines ++ nothing))
  end.

(** [handle_tool_call(tool_name, tool_input)] *)
Definition handle_tool_call (net : network) (tool_name : string)
    (tool_input : dict) : io string :=
  if negb (String.eqb tool_name "fetch_merchant_trust_signals") then
    ([], Ok ("Unknown tool: " ++ tool_name))
  else
    match dict_get "merchant_domain" tool_input with
    | None => ([], Raise KeyError)             (* tool_input["merchant_domain"] *)
    | Some (JStr domain) =>
        let wanted :=
          match dict_get "signals" tool_input with
          | Some v => v
          | None => JNull
          end in
        let (opened, fetched) := fetch_signals net domain wanted in
        (opened, result <- fetched ;; summary result)
    | Some _ => ([], Raise AttributeError)     (* .rstrip on a non-str *)
    end.

End Interpreter.

(* ------------------------------------------------------------------ *)
(** ** The specification's vocabulary *)

(** *** Extraction *)

(** The items of a node of [@graph] that is an object. *)
Definition node_items (node : json) : dict :=
  match node with
  | JObj d => d
  | _ => []
  end.

(** The elements of an array-valued [@graph] field (none when absent). *)
Definition graph_nodes (d : dict) : list json :=
  match dict_get "@graph" d with
  | Some (JArr nodes) => nodes
  | _ => []
  end.

(** [@graph] is absent or holds a value that [for] can iterate: an array,
    or a string or an object (neither has an element that is an object). *)
Definition graph_iterable (d : dict) : bool :=
  match dict_get "@graph" d with
  | Some (JNull | JBool _ | JInt _ | JFloat _) => false
  | _ => true
  end.

(** Every item found inside [@graph], in iteration order. *)
Definition graph_items (d : dict) : dict := flat_map node_items (graph_nodes d).

(** The value of the last occurrence of [k] in a sequence of items. *)
Definition last_value (k : string) (items : dict) : option json :=
  dict_get k (rev items).

(** *** Scoring *)

(** A row of the scoring table of the specification: key, max value,
    weight (unsigned) and direction. *)
Record scored_key : Type := mkScoredKey {
  sk_key : string;
  sk_max : float;
  sk_weight : float;
  sk_inverted : bool            (* "lower is better" *)
}.

Definition scoring_table : list scored_key :=
  [ mkScoredKey "disclose:review_rating" 5.0 0.35 false;
    mkScoredKey "disclose:return_rate" 1.0 0.25 true;
    mkScoredKey "disclose:dispute_rate" 1.0 0.20 true;
    mkScoredKey "disclose:fulfillment_days_p50" 30.0 0.20 true ].

Definition scored_keys : list string := map sk_key scoring_table.

(** A numeric value and the float it stands for: a JSON real, or an
    integer within the range of the floats. *)
Definition number (v : json) : option float :=
  match v with
  | JFloat x => Some x
  | JInt z =>
      match PyFloat.of_int z with
      | Ok x => Some x
      | Raise _ => None
      end
  | _ => None
  end.

(** The raw value of a key present with a numeric value. *)
Definition raw_value (signals : dict) (key : string) : option float :=
  match dict_get key signals with
  | Some v => number v
  | None => None
  end.

Definition contribution (row : scored_key) (x : float) : float :=
  let normalize := (x / sk_max row)%float in
  if sk_inverted row
  then (sk_weight row * (1 - normalize))%float
  else (sk_weight row * normalize)%float.

(** The two accumulators, each started at zero and fed in table order. *)
Definition contribution_sum (signals : dict) : float :=
  fold_left
    (fun acc row =>
       match raw_value signals (sk_key row) with
       | Some x => (acc + contribution row x)%float
       | None => acc
       end)
    scoring_table 0%float.

Definition weight_sum (signals : dict) : float :=
  fold_left
    (fun acc row =>
       match raw_value signals (sk_key row) with
       | Some _ => (acc + sk_weight row)%float
       | None => acc
       end)
    scoring_table 0%float.

Definition weighted_average (signals : dict) : float :=
  PyFloat.round (contribution_sum signals / weight_sum signals)%float 3.

(** Every scored key is absent or bound to a numeric value. *)
Definition numeric_scores (signals : dict) : Prop :=
  forall k v, In k scored_keys -> dict_get k signals = Some v -> number v <> None.

(** *** Sample inputs *)

(** An interpreter whose [float()] rejects every string and which prints
    every container as an ellipsis. *)
Definition rejecting_parser (s : string) : option float := None.
Definition elided_container (v : json) : string := "...".

(** A network that answers every request with the same outcome. *)
Definition always (o : outcome) : network := fun _ => o.

(** A document with [disclose:return_rate] at the root and, twice, inside
    [@graph]: the last occurrence inside [@graph] wins. *)
Definition merged_document : dict :=
  [ ("disclose:return_rate", JFloat 0.08);
    ("name", JStr "Shop");
    ("disclose:review_rating", JFloat 4.2);
    ("@graph",
     JArr [ JObj [("disclose:return_rate", JFloat 0.05)];
            JInt 7;
            JObj [("disclose:return_rate", JFloat 0.02);
                  ("disclose:dispute_rate", JFloat 0.01);
                  ("@id", JStr "claims")] ]) ].

(** What [fetch_signals] returns for it when no key is requested. *)
Definition merged_result : DiscloseSignals :=
  {| merchant_domain := "shop.example";
     raw := JObj merged_document;
     signals := [ ("disclose:return_rate", JFloat 0.02);
                  ("disclose:review_rating", JFloat 4.2);
                  ("disclose:dispute_rate", JFloat 0.01) ];
     verifier := JNull;
     verified_at := JNull;
     error := None |}.

(** A result with two of the four scored keys. *)
Definition rated_result : DiscloseSignals :=
  {| merchant_domain := "shop.example";
     raw := JObj [ ("disclose:review_rating", JFloat 4.2);
                   ("disclose:return_rate", JFloat 0.08) ];
     signals := [ ("disclose:review_rating", JFloat 4.2);
                  ("disclose:return_rate", JFloat 0.08) ];
     verifier := JNull;
     verified_at := JNull;
     error := None |}.

(* ------------------------------------------------------------------ *)
(** ** The callers: the command-line demo and the agent loop *)

Section Callers.

Variable float_of_str : string -> option float.
Variable str_of_container : json -> string.

(** How a run ended. *)
Inductive ending : Type :=
| Returned
| Raised (e : exn)
| StillRunning.                (* the model ran out of fuel *)

(** A run of a script: the URLs opened and the arguments of the [print]
    calls, both in order, and how the run ended. *)
Record run : Type := mkRun {
  run_opened : list string;
  run_printed : list string;
  run_end : ending
}.

(** The block under [if __name__ == "__main__"] of [disclose_tool.py];
    [argv] is [sys.argv]. *)
Definition main (net : network) (argv : list string) : run :=
  let domain :=
    match argv with
    | _ :: first :: _ => first
    | _ => "example-merchant.com"
    end in
  let heading := "Fetching Disclose signals for: " ++ domain ++ newline in
  let (opened, fetched) := fetch_signals net domain JNull in
  match fetched with
  | Raise e => mkRun opened [heading] (Raised e)
  | Ok result =>
      match summary float_of_str str_of_container result with
      | Raise e => mkRun opened [heading] (Raised e)
      | Ok text =>
          match score float_of_str result with
          | Raise e => mkRun opened [heading; text] (Raised e)
          | Ok None => mkRun opened [heading; text] Returned
          | Ok (Some x) =>
              mkRun opened
                [heading; text;
                 newline ++ "  Composite trust score: " ++ PyFloat.repr x
                   ++ " / 1.0"]
                Returned
          end
      end
  end.

(** *** [example_agent.py]

    The content blocks of a response: a text block is the one kind with a
    [text] attribute, a tool-use block the one whose [type] is
    ["tool_use"]. *)
Inductive block : Type :=
| TextBlock (text : string)
| ToolUseBlock (id name : string) (input : dict)
| OtherBlock.

Record response : Type := mkResponse {
  content : list block;
  stop_reason : string
}.

(** The entries of [messages]: the opening user message, an assistant
    turn, and a user turn of tool results, each result the pair of
    [tool_use_id] and [content]. *)
Inductive message : Type :=
| UserMessage (text : string)
| AssistantMessage (blocks : list block)
| ToolResults (results : list (string * string)).

(** [client.messages.create] with the fixed model, system prompt and
    tools: the response to a conversation.  The call is taken to return. *)
Definition client : Type := list message -> response.

(** [print(f"Agent: {block.text}")] for the blocks that have a text. *)
Definition spoken (blocks : list block) : list string :=
  flat_map
    (fun b => match b with
              | TextBlock text => ["Agent: " ++ text]
              | _ => []
              end)
    blocks.

(** The loop over the blocks of a tool-use response: the URLs opened, the
    lines printed, and the [tool_results] list, or the exception of the
    first tool call that raises. *)
Fixpoint call_tools (net : network) (blocks : list block)
  : list string * list string * result (list (string * string)) :=
  match blocks with
  | [] => ([], [], Ok [])
  | ToolUseBlock id name input :: rest =>
      let asked :=
        match dict_get "merchant_domain" input with
        | Some v => v
        | None => JNull
        end in
      let line :=
        newline ++ "[Fetching Disclose signals for: "
          ++ py_str str_of_container asked ++ "]" in
      let (opened, called) :=
        handle_tool_call float_of_str str_of_container net name input in
      match called with
      | Raise e => (opened, [line], Raise e)
      | Ok text =>
          let '(opened', printed', results) := call_tools net rest in
          ((opened ++ opened')%list,
           line :: text :: printed',
           rs <- results ;; Ok ((id, text) :: rs))
      end
  | _ :: rest => call_tools net rest
  end.

(** What a run of the agent leaves: the conversation, the URLs the tool
    calls opened (the requests to the model go through the client and are
    not listed), the lines printed, and how it ended. *)
Record agent_run : Type := mkAgentRun {
  agent_messages : list message;
  agent_opened : list string;
  agent_printed : list string;
  agent_end : ending
}.

(** The [while True] loop, at most [fuel] iterations of it. *)
Fixpoint agent_loop (fuel : nat) (api : client) (net : network)
    (messages : list message) : agent_run :=
  match fuel with
  | O => mkAgentRun messages [] [] StillRunning
  | S fuel' =>
      let reply := api messages in
      let said := spoken (content reply) in
      if String.eqb (stop_reason reply) "end_turn" then
        mkAgentRun messages [] said Returned
      else if String.eqb (stop_reason reply) "tool_use" then
        let '(opened, printed, results) := call_tools net (content reply) in
        match results with
        | Raise e => mkAgentRun messages opened (said ++ printed)%list (Raised e)
        | Ok tool_results =>
            let later :=
              agent_loop fuel' api net
                (messages ++ [AssistantMessage (content reply);
                              ToolResults tool_results])%list in
            mkAgentRun (agent_messages later)
              (opened ++ agent_opened later)%list
              (said ++ printed ++ agent_printed later)%list
              (agent_end later)
        end
      else
        mkAgentRun messages [] said Returned
  end.

(** [run_shopping_agent(user_message)] *)
Definition run_shopping_agent (fuel : nat) (api : client) (net : network)
    (user_message : string) : agent_run :=
  agent_loop fuel api net [UserMessage user_message].

End Callers.

(** The [id]s of the tool-use blocks, in order. *)
Definition tool_use_ids (blocks : list block) : list string :=
  flat_map
    (fun b => match b with
              | ToolUseBlock id _ _ => [id]
              | _ => []
              end)
    blocks.

(** *** Further vocabulary and sample inputs *)

(** [disclose:verifier] is absent or holds an object. *)
Definition verifier_is_object (d : dict) : bool :=
  match dict_get "disclose:verifier" d with
  | None | Some (JObj _) => true
  | Some _ => false
  end.

(** The requested keys are [None] or a list, as the signature asks. *)
Definition none_or_list (wanted : json) : bool :=
  match wanted with
  | JNull | JArr _ => true
  | _ => false
  end.

(** The keys whose values [_format_value] passes to [float()]. *)
Definition rate_key (short_key : string) : bool :=
  String.eqb short_key "return_rate" || String.eqb short_key "dispute_rate".

(** [if self.error] *)
Definition error_shown (self : DiscloseSignals) : bool :=
  match error self with
  | Some (String _ _) => true
  | _ => false
  end.

(** What the loop of [score] sees of a key: a value other than [None]. *)
Definition scored_value (signals : dict) (key : string) : option json :=
  match dict_get key signals with
  | Some JNull => None
  | found => found
  end.

(** A flat document: two signals between two other fields. *)
Definition flat_document : dict :=
  [ ("@context", JStr "https://discloseframework.dev/ns");
    ("disclose:review_rating", JFloat 4.2);
    ("name", JStr "Shop");
    ("disclose:return_rate", JFloat 0.08) ].

(** A document without any signal. *)
Definition bare_document : dict :=
  [ ("@context", JStr "https://discloseframework.dev/ns");
    ("name", JStr "Shop");
    ("@graph", JArr [JObj [("@id", JStr "claims")]; JStr "note"]) ].

(** A tool input naming a domain only. *)
Definition shop_input : dict := [("merchant_domain", JStr "https://shop.example/")].

(** A result whose return rate is [null] in the document. *)
Definition null_rate_result : DiscloseSignals :=
  {| merchant_domain := "shop.example";
     raw := JObj [ ("disclose:return_rate", JNull);
                   ("disclose:review_rating", JFloat 4.2) ];
     signals := [ ("disclose:return_rate", JNull);
                  ("disclose:review_rating", JFloat 4.2) ];
     verifier := JNull;
     verified_at := JNull;
     error := None |}.

(** A result with one scored key and a signal that is not scored. *)
Definition annotated_result : DiscloseSignals :=
  {| merchant_domain := "other.example";
     raw := JObj [ ("disclose:review_rating", JFloat 4.2);
                   ("disclose:note", JStr "n/a") ];
     signals := [ ("disclose:review_rating", JFloat 4.2);
                  ("disclose:note", JStr "n/a") ];
     verifier := JNull;
     verified_at := JNull;
     error := None |}.

(** The messages after the opening one come in rounds.  Each round is the
    assistant turn holding the blocks of the reply to the conversation so
    far, a reply whose stop reason is ["tool_use"], followed by the tool
    results [call_tools] computed for these blocks. *)
Fixpoint rounds_of (float_of_str : string -> option float)
    (str_of_container : json -> string) (net : network) (api : client)
    (messages tail : list message) : Prop :=
  match tail with
  | [] => True
  | AssistantMessage blocks :: ToolResults results :: rest =>
      blocks = content (api messages)
      /\ stop_reason (api messages) = "tool_use"
      /\ snd (call_tools float_of_str str_of_container net blocks) = Ok results
      /\ rounds_of float_of_str str_of_container net api
           (messages ++ [AssistantMessage blocks; ToolResults results])%list
           rest
  | _ => False
  end.

(** An integer prints when it has at most 4300 decimal digits: beyond
    that [str()] raises [ValueError] (the interpreter's limit on integer
    string conversion), which [py_str] does not model.  The same limit
    stops [json.loads], so every value it returns prints. *)
Fixpoint printable (v : json) : bool :=
  match v with
  | JInt z => (Z.abs z <? 10 ^ 4300)%Z
  | JArr l => forallb printable l
  | JObj d => forallb (fun kv => printable (snd kv)) d
  | _ => true
  end.

(** Everything [summary] may print of a result prints. *)
Definition printable_result (self : DiscloseSignals) : bool :=
  printable (verifier self)
  && printable (verified_at self)
  && forallb (fun kv => printable (snd kv)) (signals self).

(** A result whose rating is an integer beyond the range of the floats
    (a 401-digit integer, which [json.loads] returns as an [int]). *)
Definition huge_rating_result : DiscloseSignals :=
  {| merchant_domain := "shop.example";
     raw := JObj [("disclose:review_rating", JInt (10 ^ 400))];
     signals := [("disclose:review_rating", JInt (10 ^ 400))];
     verifier := JNull;
     verified_at := JNull;
     error := None |}.

(** A model that asks for one lookup and then answers. *)
Definition scripted : client :=
  fun messages =>
    match messages with
    | [_] =>
        mkResponse
          [ TextBlock "Let me check.";
            ToolUseBlock "toolu_1" "fetch_merchant_trust_signals" shop_input ]
          "tool_use"
    | _ => mkResponse [TextBlock "Done."] "end_turn"
    end.

(** A model cut off in the middle of a tool request. *)
Definition truncated : client :=
  fun _ =>
    mkResponse
      [ TextBlock "Let me check.";
        ToolUseBlock "toolu_1" "fetch_merchant_trust_signals" shop_input ]
      "max_tokens".

(* ================================================================== *)
(** * Properties *)

(* ------------------------------------------------------------------ *)
(** ** Strings *)

Lemma rstrip_unchanged (c : ascii) (s : string) :
  PyStr.endswith s c = false -> PyStr.rstrip c s = s.
Proof.
  induction s as [|a t IH]; [reflexivity|].
  destruct t as [|b t'].
  - simpl. intros ->. reflexivity.
  - intros H. change (PyStr.endswith (String b t') c = false) in H.
    specialize (IH H).
    change (PyStr.rstrip c (String a (String b t')))
      with (match PyStr.rstrip c (String b t') with
            | EmptyString =>
                if Ascii.eqb a c then EmptyString else String a EmptyString
            | t0 => String a t0
            end).
    rewrite IH. reflexivity.
Qed.

Lemma rstrip_repeat (c : ascii) (n : nat) :
  PyStr.rstrip c (PyStr.repeat c n) = EmptyString.
Proof.
  induction n as [|n IH]; [reflexivity|].
  simpl. rewrite IH, Ascii.eqb_refl. reflexivity.
Qed.

Lemma rstrip_app_repeat (c : ascii) (s : string) (n : nat) :
  PyStr.rstrip c (s ++ PyStr.repeat c n) = PyStr.rstrip c s.
Proof.
  induction s as [|a t IH].
  - apply rstrip_repeat.
  - simpl. rewrite IH. reflexivity.
Qed.

Lemma endswith_app (c : ascii) (s t : string) :
  t <> EmptyString -> PyStr.endswith (s ++ t) c = PyStr.endswith t c.
Proof.
  intros Ht. induction s as [|a s IH]; [reflexivity|].
  simpl. rewrite IH.
  destruct (s ++ t) eqn:E; [|reflexivity].
  destruct s; simpl in E; [contradiction | discriminate].
Qed.

Lemma rstrip_host (c : ascii) (scheme host : string) (n : nat) :
  host <> EmptyString -> PyStr.endswith host c = false ->
  PyStr.rstrip c (scheme ++ host ++ PyStr.repeat c n) = scheme ++ host.
Proof.
  intros Hne Hend.
  assert (A : scheme ++ host ++ PyStr.repeat c n
              = (scheme ++ host) ++ PyStr.repeat c n).
  { clear. induction scheme as [|a s IH]; simpl; [reflexivity | now rewrite IH]. }
  rewrite A, rstrip_app_repeat.
  apply rstrip_unchanged. rewrite endswith_app; assumption.
Qed.

Lemma removeprefix_absent (s p : string) :
  PyStr.startswith s p = false -> PyStr.removeprefix s p = s.
Proof. unfold PyStr.removeprefix. intros ->. reflexivity. Qed.

(* ------------------------------------------------------------------ *)
(** ** C2: domain normalisation *)

(** C2 (as stated, refuted): the normalised domain is not the input with
    one scheme prefix and one trailing slash removed; with two trailing
    slashes the code removes both. *)
Lemma normalize_domain_not_once :
  normalize_domain "shop.example//" = "shop.example"
  /\ strip_exactly_once "shop.example//" = "shop.example/"
  /\ target_url "shop.example//"
     <> "https://" ++ strip_exactly_once "shop.example//" ++ WELL_KNOWN_PATH.
Proof. repeat split; try reflexivity. discriminate. Qed.

(** C2 (amended): for an input made of an optional scheme prefix
    ([http://] or [https://]), a non-empty host that neither ends with a
    slash nor itself starts with a scheme prefix, and any number of
    trailing slashes, the normalised domain is the host: the scheme prefix
    is removed once and all the trailing slashes are removed.  The target
    URL is [https://host/.well-known/disclose.json]. *)
Theorem normalize_domain_strips (scheme host : string) (n : nat) :
  In scheme [""; "http://"; "https://"] ->
  host <> "" ->
  PyStr.endswith host "/" = false ->
  PyStr.startswith host "http://" = false ->
  PyStr.startswith host "https://" = false ->
  normalize_domain (scheme ++ host ++ PyStr.repeat "/" n) = host
  /\ target_url (scheme ++ host ++ PyStr.repeat "/" n)
     = "https://" ++ host ++ "/.well-known/disclose.json".
Proof.
  intros Hs Hne Hend Hhttp Hhttps.
  assert (N : normalize_domain (scheme ++ host ++ PyStr.repeat "/" n) = host).
  { unfold normalize_domain. rewrite rstrip_host by assumption.
    destruct Hs as [<-|[<-|[<-|[]]]].
    - change ("" ++ host) with host.
      rewrite (removeprefix_absent host "https://") by assumption.
      apply removeprefix_absent; assumption.
    - unfold PyStr.removeprefix, PyStr.startswith. simpl.
      destruct host; reflexivity.
    - unfold PyStr.removeprefix at 2. unfold PyStr.startswith. simpl.
      destruct host; [contradiction|].
      apply removeprefix_absent; assumption. }
  split; [exact N|]. unfold target_url. rewrite N. reflexivity.
Qed.

Lemma normalize_domain_strips_witness :
  normalize_domain ("https://" ++ "shop.example" ++ PyStr.repeat "/" 3)
  = "shop.example"
  /\ target_url ("https://" ++ "shop.example" ++ PyStr.repeat "/" 3)
     = "https://" ++ "shop.example" ++ "/.well-known/disclose.json".
Proof.
  apply (normalize_domain_strips "https://" "shop.example" 3).
  - simpl. auto.
  - discriminate.
  - reflexivity.
  - reflexivity.
  - reflexivity.
Defined.

(** Two scheme prefixes in the order [https://], [http://] are both
    removed; a bare scheme loses its slashes before the prefix is looked
    for. *)
Lemma normalize_domain_edge_cases :
  normalize_domain "https://http://shop.example" = "shop.example"
  /\ normalize_domain "http://https://shop.example" = "https://shop.example"
  /\ normalize_domain "https://" = "https:".
Proof. repeat split; reflexivity. Qed.

(* ------------------------------------------------------------------ *)
(** ** Dictionaries *)

Lemma dict_get_set (k k' : string) (v : json) (d : dict) :
  dict_get k (dict_set k' v d) = if String.eqb k k' then Some v else dict_get k d.
Proof.
  induction d as [|[k0 v0] t IH]; simpl.
  - reflexivity.
  - destruct (String.eqb_spec k' k0) as [->|Hk'].
    + simpl. destruct (String.eqb k k0); reflexivity.
    + simpl. rewrite IH.
      destruct (String.eqb_spec k k0) as [->|Hk]; [|reflexivity].
      destruct (String.eqb_spec k0 k') as [E|_]; [|reflexivity].
      symmetry in E. contradiction.
Qed.

Lemma dict_get_app (k : string) (d1 d2 : dict) :
  dict_get k (d1 ++ d2)%list
  = match dict_get k d1 with Some v => Some v | None => dict_get k d2 end.
Proof.
  induction d1 as [|[k0 v0] t IH]; simpl; [reflexivity|].
  destruct (String.eqb k k0); [reflexivity | exact IH].
Qed.

Lemma dict_get_absent (k : string) (d : dict) :
  ~ In k (dict_keys d) -> dict_get k d = None.
Proof.
  induction d as [|[k0 v0] t IH]; simpl; [reflexivity|].
  intros H. destruct (String.eqb_spec k k0) as [->|_].
  - exfalso. apply H. now left.
  - apply IH. intros Hin. apply H. now right.
Qed.

Lemma dict_get_present (k : string) (v : json) (d : dict) :
  dict_get k d = Some v -> In k (dict_keys d).
Proof.
  induction d as [|[k0 v0] t IH]; simpl; [discriminate|].
  destruct (String.eqb_spec k k0) as [->|_]; [now left|].
  intros H. right. now apply IH.
Qed.

Lemma dict_keys_set (k0 k : string) (v : json) (d : dict) :
  In k0 (dict_keys (dict_set k v d)) <-> k0 = k \/ In k0 (dict_keys d).
Proof.
  induction d as [|[k1 v1] t IH]; simpl.
  - intuition congruence.
  - destruct (String.eqb_spec k k1) as [->|Hk]; simpl.
    + intuition congruence.
    + rewrite IH. intuition congruence.
Qed.

Lemma unique_keys_set (k : string) (v : json) (d : dict) :
  unique_keys d -> unique_keys (dict_set k v d).
Proof.
  unfold unique_keys.
  induction d as [|[k1 v1] t IH]; simpl; intros H.
  - constructor; [intros [] | constructor].
  - inversion H as [|? ? Hnotin Ht]; subst.
    destruct (String.eqb_spec k k1) as [->|Hk]; simpl.
    + constructor; assumption.
    + constructor; [|now apply IH].
      intros Hin. apply (dict_keys_set k1 k v t) in Hin.
      destruct Hin as [E|Hin]; [symmetry in E|]; contradiction.
Qed.

Lemma last_value_unique (k : string) (d : dict) :
  unique_keys d -> last_value k d = dict_get k d.
Proof.
  unfold unique_keys, last_value.
  induction d as [|[k0 v0] t IH]; simpl; intros H; [reflexivity|].
  inversion H as [|? ? Hnotin Ht]; subst.
  rewrite dict_get_app, (IH Ht). simpl.
  destruct (String.eqb_spec k k0) as [->|_].
  - now rewrite (dict_get_absent k0 t Hnotin).
  - destruct (dict_get k t); reflexivity.
Qed.

Lemma last_value_app (k : string) (d1 d2 : dict) :
  last_value k (d1 ++ d2)%list
  = match last_value k d2 with Some v => Some v | None => last_value k d1 end.
Proof. unfold last_value. now rewrite rev_app_distr, dict_get_app. Qed.

(* ------------------------------------------------------------------ *)
(** ** C3: extraction *)

Lemma startswith_eq (k k' p : string) :
  k = k' -> PyStr.startswith k p = PyStr.startswith k' p.
Proof. now intros ->. Qed.

Lemma last_value_single (k k0 : string) (v0 : json) :
  last_value k [(k0, v0)] = if String.eqb k k0 then Some v0 else None.
Proof. reflexivity. Qed.

(** A loop that writes the items selected by [p] into [acc]: afterwards a
    selected key holds the value of its last occurrence, and the other
    keys are as they were. *)
Lemma select_get (p : string -> bool) (k : string) (items acc : dict) :
  dict_get k
    (fold_left
       (fun a kv => if p (fst kv) then dict_set (fst kv) (snd kv) a else a)
       items acc)
  = if p k
    then match last_value k items with
         | Some v => Some v
         | None => dict_get k acc
         end
    else dict_get k acc.
Proof.
  revert acc.
  induction items as [|[k0 v0] t IH]; intros acc.
  - simpl. now destruct (p k).
  - cbn [fold_left fst snd]. rewrite IH. clear IH.
    change ((k0, v0) :: t) with ([(k0, v0)] ++ t)%list.
    rewrite last_value_app, last_value_single.
    destruct (String.eqb_spec k k0) as [E|Hne].
    + subst k0.
      destruct (p k); [|reflexivity].
      rewrite dict_get_set, String.eqb_refl.
      destruct (last_value k t); reflexivity.
    + assert (A : dict_get k (if p k0 then dict_set k0 v0 acc else acc)
                  = dict_get k acc).
      { destruct (p k0); [|reflexivity].
        rewrite dict_get_set.
        destruct (String.eqb_spec k k0); [contradiction | reflexivity]. }
      rewrite A. destruct (last_value k t); reflexivity.
Qed.

Lemma select_unique (p : string -> bool) (items acc : dict) :
  unique_keys acc ->
  unique_keys
    (fold_left
       (fun a kv => if p (fst kv) then dict_set (fst kv) (snd kv) a else a)
       items acc).
Proof.
  revert acc.
  induction items as [|[k0 v0] t IH]; intros acc H; [exact H|].
  cbn [fold_left fst snd]. apply IH.
  destruct (p k0); [now apply unique_keys_set | exact H].
Qed.

Lemma collect_get (k : string) (items acc : dict) :
  dict_get k (collect items acc)
  = if PyStr.startswith k "disclose:"
    then match last_value k items with
         | Some v => Some v
         | None => dict_get k acc
         end
    else dict_get k acc.
Proof. exact (select_get (fun s => PyStr.startswith s "disclose:") k items acc). Qed.

Lemma collect_unique (items acc : dict) :
  unique_keys acc -> unique_keys (collect items acc).
Proof. exact (select_unique (fun s => PyStr.startswith s "disclose:") items acc). Qed.

Lemma collect_node_items (acc : dict) (node : json) :
  collect_node acc node = collect (node_items node) acc.
Proof. destruct node; reflexivity. Qed.

Lemma collect_nodes_get (k : string) (nodes : list json) (acc : dict) :
  dict_get k (fold_left collect_node nodes acc)
  = if PyStr.startswith k "disclose:"
    then match last_value k (flat_map node_items nodes) with
         | Some v => Some v
         | None => dict_get k acc
         end
    else dict_get k acc.
Proof.
  revert acc.
  induction nodes as [|node rest IH]; intros acc.
  - simpl. now destruct (PyStr.startswith k "disclose:").
  - cbn [fold_left flat_map]. rewrite IH, collect_node_items, collect_get.
    rewrite last_value_app.
    destruct (PyStr.startswith k "disclose:"); [|reflexivity].
    destruct (last_value k (flat_map node_items rest)); reflexivity.
Qed.

Lemma collect_nodes_unique (nodes : list json) (acc : dict) :
  unique_keys acc -> unique_keys (fold_left collect_node nodes acc).
Proof.
  revert acc.
  induction nodes as [|node rest IH]; intros acc H; [exact H|].
  cbn [fold_left]. apply IH. rewrite collect_node_items. now apply collect_unique.
Qed.

(** Whatever extraction returns has pairwise distinct keys. *)
Lemma extract_signals_unique (raw : json) (all_signals : dict) :
  _extract_signals raw = Ok all_signals -> unique_keys all_signals.
Proof.
  unfold _extract_signals.
  destruct raw as [| | | | | |d]; try discriminate.
  cbn [py_items py_get bind].
  destruct (py_iter _) as [nodes|e]; [|discriminate].
  cbn [bind]. intros [= <-].
  apply collect_nodes_unique, collect_unique. constructor.
Qed.

Lemma collect_nodes_skip (nodes : list json) (acc : dict) :
  (forall node, In node nodes -> node_items node = []) ->
  fold_left collect_node nodes acc = acc.
Proof.
  induction nodes as [|node rest IH]; intros H; [reflexivity|].
  cbn [fold_left]. rewrite collect_node_items, (H node) by now left.
  apply IH. intros n Hn. apply H. now right.
Qed.

Lemma chars_not_objects (s : string) (node : json) :
  In node (chars s) -> node_items node = [].
Proof.
  induction s as [|a t IH]; simpl; [intros []|].
  intros [<-|H]; [reflexivity | now apply IH].
Qed.

Lemma keys_not_objects (d : dict) (node : json) :
  In node (map (fun kv : string * json => JStr (fst kv)) d) ->
  node_items node = [].
Proof.
  intros H. apply in_map_iff in H. destruct H as [kv [<- _]]. reflexivity.
Qed.

(** What extraction computes on an object whose [@graph] can be iterated. *)
Lemma extract_signals_object (d : dict) :
  graph_iterable d = true ->
  _extract_signals (JObj d)
  = Ok (fold_left collect_node (graph_nodes d) (collect d [])).
Proof.
  unfold _extract_signals, graph_nodes, graph_iterable.
  cbn [py_items py_get bind].
  destruct (dict_get "@graph" d) as [[| | | |s|l|o]|]; try discriminate;
    intros _; cbn [py_iter bind]; try reflexivity.
  - now rewrite (collect_nodes_skip (chars s)) by apply chars_not_objects.
  - now rewrite (collect_nodes_skip (map _ o)) by apply keys_not_objects.
Qed.




(* ------------------------------------------------------------------ *)
(** ** The filter of [fetch_signals] *)

(** With a list of requested keys the comprehension never raises: it is
    the loop that writes the requested items. *)
Lemma comprehension_list (wanted : list json) (items acc : dict) :
  comprehension (JArr wanted) items acc
  = Ok (fold_left
          (fun a kv =>
             if existsb (str_eq (fst kv)) wanted
             then dict_set (fst kv) (snd kv) a else a)
          items acc).
Proof.
  revert acc.
  induction items as [|[k v] t IH]; intros acc; [reflexivity|].
  cbn [comprehension py_contains bind fold_left fst snd]. apply IH.
Qed.

Lemma requested_in (k : string) (wanted : list json) :
  existsb (str_eq k) wanted = true <-> In (JStr k) wanted.
Proof.
  rewrite existsb_exists. split.
  - intros [x [Hin Hx]]. destruct x; try discriminate.
    apply String.eqb_eq in Hx. now subst.
  - intros H. exists (JStr k). split; [exact H|]. apply String.eqb_refl.
Qed.

Lemma filter_signals_list (wanted : list json) (all_signals : dict) :
  wanted <> [] ->
  unique_keys all_signals ->
  exists filtered,
    filter_signals (JArr wanted) all_signals = Ok filtered
    /\ forall k,
         dict_get k filtered
         = if existsb (str_eq k) wanted then dict_get k all_signals else None.
Proof.
  intros Hne Hu. unfold filter_signals.
  destruct wanted as [|w ws]; [contradiction|].
  cbn [truthy]. rewrite comprehension_list.
  eexists. split; [reflexivity|].
  intros k.
  rewrite (select_get (fun s => existsb (str_eq s) (w :: ws)) k all_signals []).
  rewrite (last_value_unique k _ Hu). cbn [dict_get].
  destruct (existsb (str_eq k) (w :: ws)); [|reflexivity].
  destruct (dict_get k all_signals); reflexivity.
Qed.

(** The statements after the [try] block, read backwards from a result. *)
Lemma parse_signals_result (domain : string) (wanted raw : json)
    (result : DiscloseSignals) :
  parse_signals domain wanted raw = Ok result ->
  exists all_signals,
    _extract_signals raw = Ok all_signals
    /\ filter_signals wanted all_signals = Ok (signals result)
    /\ error result = None.
Proof.
  unfold parse_signals.
  destruct (_extract_signals raw) as [all_signals|e]; [|discriminate].
  cbn [bind].
  destruct (filter_signals wanted all_signals) as [filtered|e] eqn:Hf;
    [|discriminate].
  cbn [bind].
  destruct (read_verifier raw) as [ver|e]; [|discriminate].
  cbn [bind].
  destruct (py_get raw "disclose:verified_at" JNull) as [at_|e]; [|discriminate].
  cbn [bind]. intros [= <-]. exists all_signals. cbn.
  split; [reflexivity|]. split; [exact Hf | reflexivity].
Qed.

Lemma fetch_signals_loaded (net : network) (domain : string) (wanted raw : json) :
  net (target_url domain) = Loaded raw ->
  snd (fetch_signals net domain wanted)
  = parse_signals (normalize_domain domain) wanted raw.
Proof.
  unfold fetch_signals, target_url. cbn [snd]. intros ->. reflexivity.
Qed.

(* ------------------------------------------------------------------ *)
(** ** C4: filtering by the requested keys *)

(** C4 (as stated, refuted): with the empty collection of requested keys
    the returned mapping is not a subset of the requested key set; the
    extracted signal comes back although no key was requested. *)
Lemma empty_request_not_subset :
  exists result,
    snd (fetch_signals (always (Loaded (JObj [("disclose:return_rate", JInt 0)])))
           "shop.example" (JArr []))
    = Ok result
    /\ dict_get "disclose:return_rate" (signals result) = Some (JInt 0)
    /\ ~ In (JStr "disclose:return_rate") [].
Proof.
  eexists. split; [reflexivity|]. split; [reflexivity|]. intros [].
Qed.

(** C4 (amended): for every non-empty list of requested keys and every
    document on which extraction returns, the filter returns (requesting
    an unknown key is no error): a key is bound in the filtered mapping
    exactly when it is requested and extracted, to the extracted value; so
    the filtered mapping is a subset of the extracted mapping and of the
    requested keys, and it is the [signals] of the result that
    [fetch_signals] returns. *)
Theorem filter_signals_subset (net : network) (domain : string)
    (wanted : list json) (raw : json) (all_signals : dict) :
  wanted <> [] ->
  net (target_url domain) = Loaded raw ->
  _extract_signals raw = Ok all_signals ->
  exists filtered,
    filter_signals (JArr wanted) all_signals = Ok filtered
    /\ (forall k,
          dict_get k filtered
          = if existsb (str_eq k) wanted then dict_get k all_signals else None)
    /\ (forall k v,
          dict_get k filtered = Some v ->
          dict_get k all_signals = Some v /\ In (JStr k) wanted)
    /\ (forall result,
          snd (fetch_signals net domain (JArr wanted)) = Ok result ->
          signals result = filtered).
Proof.
  intros Hne Hnet Hex.
  destruct (filter_signals_list wanted all_signals Hne
              (extract_signals_unique _ _ Hex)) as [filtered [Hf Hget]].
  exists filtered. split; [exact Hf|]. split; [exact Hget|]. split.
  - intros k v Hk. rewrite Hget in Hk.
    destruct (existsb (str_eq k) wanted) eqn:Hw; [|discriminate].
    split; [exact Hk | now apply requested_in].
  - intros result Hr.
    rewrite (fetch_signals_loaded net domain _ raw Hnet) in Hr.
    apply parse_signals_result in Hr.
    destruct Hr as [all' [Hex' [Hf' _]]].
    rewrite Hex in Hex'. injection Hex' as <-.
    rewrite Hf in Hf'. now injection Hf' as <-.
Qed.

Lemma filter_signals_subset_witness :
  exists filtered,
    filter_signals
      (JArr [JStr "disclose:return_rate"; JStr "disclose:unknown"])
      [ ("disclose:return_rate", JFloat 0.02);
        ("disclose:review_rating", JFloat 4.2);
        ("disclose:dispute_rate", JFloat 0.01) ]
    = Ok filtered
    /\ (forall k,
          dict_get k filtered
          = if existsb (str_eq k)
                 [JStr "disclose:return_rate"; JStr "disclose:unknown"]
            then dict_get k
                   [ ("disclose:return_rate", JFloat 0.02);
                     ("disclose:review_rating", JFloat 4.2);
                     ("disclose:dispute_rate", JFloat 0.01) ]
            else None)
    /\ (forall k v,
          dict_get k filtered = Some v ->
          dict_get k
            [ ("disclose:return_rate", JFloat 0.02);
              ("disclose:review_rating", JFloat 4.2);
              ("disclose:dispute_rate", JFloat 0.01) ]
          = Some v
          /\ In (JStr k) [JStr "disclose:return_rate"; JStr "disclose:unknown"])
    /\ (forall result,
          snd (fetch_signals (always (Loaded (JObj merged_document)))
                 "shop.example"
                 (JArr [JStr "disclose:return_rate"; JStr "disclose:unknown"]))
          = Ok result ->
          signals result = filtered).
Proof.
  apply (filter_signals_subset (always (Loaded (JObj merged_document)))
           "shop.example"
           [JStr "disclose:return_rate"; JStr "disclose:unknown"]
           (JObj merged_document)).
  - discriminate.
  - reflexivity.
  - reflexivity.
Defined.

(* ------------------------------------------------------------------ *)
(** ** C9: the empty list of requested keys *)

(** C9: a call with the empty list of requested keys is the call with no
    filter ([None]), on every network; when it returns, the [signals] of
    the result are all the extracted signals, not the empty mapping. *)
Theorem empty_request_is_no_filter (net : network) (domain : string) :
  fetch_signals net domain (JArr []) = fetch_signals net domain JNull
  /\ forall raw all_signals result,
       net (target_url domain) = Loaded raw ->
       _extract_signals raw = Ok all_signals ->
       snd (fetch_signals net domain (JArr [])) = Ok result ->
       signals result = all_signals.
Proof.
  split; [reflexivity|].
  intros raw all_signals result Hnet Hex Hr.
  rewrite (fetch_signals_loaded net domain _ raw Hnet) in Hr.
  apply parse_signals_result in Hr.
  destruct Hr as [all' [Hex' [Hf _]]].
  rewrite Hex in Hex'. injection Hex' as <-.
  unfold filter_signals in Hf. cbn [truthy] in Hf. now injection Hf as <-.
Qed.

Lemma empty_request_is_no_filter_witness :
  signals merged_result
  = [ ("disclose:return_rate", JFloat 0.02);
      ("disclose:review_rating", JFloat 4.2);
      ("disclose:dispute_rate", JFloat 0.01) ].
Proof.
  apply (proj2 (empty_request_is_no_filter
                  (always (Loaded (JObj merged_document))) "shop.example")
           (JObj merged_document)).
  - reflexivity.
  - reflexivity.
  - reflexivity.
Defined.

(* ------------------------------------------------------------------ *)
(** ** C7: [error] and [signals] *)

(** The four [except] clauses return a result with [error] set and no
    signals. *)
Lemma fetch_signals_failure (net : network) (domain : string) (wanted : json) :
  (forall raw, net (target_url domain) <> Loaded raw) ->
  exists msg,
    snd (fetch_signals net domain wanted)
    = Ok (failed (normalize_domain domain) msg).
Proof.
  unfold fetch_signals, target_url. cbn [snd]. intros H.
  destruct (net _) as [code|reason| |text|raw] eqn:E;
    try (eexists; reflexivity).
  exfalso. exact (H raw eq_refl).
Qed.

(** C7: in every result that [fetch_signals] returns, a set [error] comes
    with an empty [signals] mapping, and a non-empty [signals] mapping
    comes with no [error]. *)
Theorem error_excludes_signals (net : network) (domain : string)
    (wanted : json) (result : DiscloseSignals) :
  snd (fetch_signals net domain wanted) = Ok result ->
  (error result <> None -> signals result = [])
  /\ (signals result <> [] -> error result = None).
Proof.
  unfold fetch_signals. cbn [snd].
  destruct (net _) as [code|reason| |text|raw];
    try (intros [= <-]; split; [reflexivity | intros H; now contradiction H]).
  intros H. apply parse_signals_result in H.
  destruct H as [all_signals [_ [_ He]]].
  split; [intros H; contradiction | intros _; exact He].
Qed.

Lemma error_excludes_signals_witness :
  (error (failed "shop.example"
            "HTTP 404: merchant may not support Disclose Framework") <> None ->
   signals (failed "shop.example"
              "HTTP 404: merchant may not support Disclose Framework") = [])
  /\ (signals (failed "shop.example"
                 "HTTP 404: merchant may not support Disclose Framework") <> [] ->
      error (failed "shop.example"
               "HTTP 404: merchant may not support Disclose Framework") = None).
Proof.
  apply (error_excludes_signals (always (HTTPError 404)) "https://shop.example/"
           JNull).
  reflexivity.
Defined.

(* ------------------------------------------------------------------ *)
(** ** C1: failures outside the [try] block *)

(** A document that is not an object stops [_extract_signals] at
    [raw.items()]. *)
Lemma parse_signals_non_object (domain : string) (wanted raw : json) :
  (forall d, raw <> JObj d) ->
  parse_signals domain wanted raw = Raise AttributeError.
Proof.
  intros H. destruct raw; try reflexivity. now contradiction (H d).
Qed.

(** A verifier that is not an object stops [fetch_signals] at
    [.get("@id")], whatever else the document holds, once extraction and
    filtering have returned. *)
Lemma read_verifier_non_object (d : dict) (v : json) :
  dict_get "disclose:verifier" d = Some v ->
  (forall o, v <> JObj o) ->
  read_verifier (JObj d) = Raise AttributeError.
Proof.
  intros Hv H. unfold read_verifier. cbn [py_get bind]. rewrite Hv.
  destruct v; try reflexivity. now contradiction (H d0).
Qed.

(** C1 (the code at the failing inputs): the statements after the [try]
    block raise to the caller.  A verifier given as a plain string, the
    shape the [or raw.get("disclose:verifier")] fallback is written for,
    raises [AttributeError]; so does a document that is an array, a string
    or a number; a [@graph] that is a number or [null] raises [TypeError]. *)
Theorem fetch_signals_raises :
  snd (fetch_signals
         (always (Loaded (JObj [("disclose:verifier", JStr "acme-audit")])))
         "shop.example" JNull)
  = Raise AttributeError
  /\ snd (fetch_signals (always (Loaded (JArr []))) "shop.example" JNull)
     = Raise AttributeError
  /\ snd (fetch_signals (always (Loaded (JStr "ok"))) "shop.example" JNull)
     = Raise AttributeError
  /\ snd (fetch_signals (always (Loaded (JInt 42))) "shop.example" JNull)
     = Raise AttributeError
  /\ snd (fetch_signals
            (always (Loaded (JObj [("@graph", JInt 5)]))) "shop.example" JNull)
     = Raise TypeError
  /\ snd (fetch_signals
            (always (Loaded (JObj [("@graph", JNull)]))) "shop.example" JNull)
     = Raise TypeError.
Proof. repeat split; reflexivity. Qed.

(* ------------------------------------------------------------------ *)
(** ** C6: no scored key *)

(** C6: when none of the four scored keys is in the signals mapping,
    [score] returns [None] ("insufficient data"), which is not the number
    [0.0]; in particular this is the score of every result that
    [fetch_signals] returns from one of its [except] clauses. *)
Theorem score_insufficient_data (float_of_str : string -> option float) :
  (forall self,
     (forall k, In k scored_keys -> dict_get k (signals self) = None) ->
     score float_of_str self = Ok None
     /\ score float_of_str self <> Ok (Some 0%float))
  /\ (forall net domain wanted result,
        (forall raw, net (target_url domain) <> Loaded raw) ->
        snd (fetch_signals net domain wanted) = Ok result ->
        score float_of_str result = Ok None).
Proof.
  assert (A : forall self,
             (forall k, In k scored_keys -> dict_get k (signals self) = None) ->
             score float_of_str self = Ok None).
  { intros self H. unfold score, weights.
    cbn [score_loop score_step bind].
    rewrite !H by (simpl; auto 6). cbn [bind]. reflexivity. }
  split.
  - intros self H. rewrite (A self H). split; [reflexivity | discriminate].
  - intros net domain wanted result Hnet Hr.
    destruct (fetch_signals_failure net domain wanted Hnet) as [msg Hm].
    rewrite Hm in Hr. injection Hr as <-.
    apply A. reflexivity.
Qed.

Lemma score_insufficient_data_witness :
  score rejecting_parser
    (failed "shop.example"
       "HTTP 404: merchant may not support Disclose Framework")
  = Ok None.
Proof.
  apply (proj2 (score_insufficient_data rejecting_parser)
           (always (HTTPError 404)) "https://shop.example/" JNull).
  - discriminate.
  - reflexivity.
Defined.

(* ------------------------------------------------------------------ *)
(** ** C5: the weighted average *)

(** On a numeric value [float(val)] is the number it stands for. *)
Lemma py_float_number (float_of_str : string -> option float) (v : json) :
  number v <> None ->
  exists x, number v = Some x /\ py_float float_of_str v = Ok x.
Proof.
  destruct v as [| |z|x| | |]; cbn [number py_float]; try congruence.
  - destruct (PyFloat.of_int z) as [x|e]; [|congruence].
    intros _. now exists x.
  - intros _. now exists x.
Qed.

(** One iteration of the loop of [score], on a key that is absent or
    numeric, in terms of the raw value of the key. *)
Lemma score_step_numeric (float_of_str : string -> option float)
    (signals : dict) (key : string) (max_val w sc tw : float) :
  (forall v, dict_get key signals = Some v -> number v <> None) ->
  score_step float_of_str signals (sc, tw) (key, (max_val, w))
  = Ok match raw_value signals key with
       | Some x =>
           (if PrimFloat.ltb w 0
            then sc + PrimFloat.abs w * (1 - x / max_val)
            else sc + w * (x / max_val),
            tw + PrimFloat.abs w)%float
       | None => (sc, tw)
       end.
Proof.
  intros H. unfold score_step, raw_value.
  destruct (dict_get key signals) as [v|]; [|reflexivity].
  destruct (py_float_number float_of_str v (H v eq_refl)) as [x [Hn Hf]].
  rewrite Hn.
  destruct v; try discriminate Hn; rewrite Hf; reflexivity.
Qed.

(** C5 (as stated, refuted): an integer beyond the range of the floats is
    a numeric value, and on it [float(val)] raises [OverflowError]: no
    score is returned. *)
Lemma score_huge_integer :
  number (JInt (10 ^ 400)) = None
  /\ score rejecting_parser huge_rating_result = Raise OverflowError.
Proof. split; vm_compute; reflexivity. Qed.

(** C5 (amended): when every scored key is absent or holds a numeric value
    that [float()] converts (a real, or an integer within the range of the
    floats) and at least one is present, [score] returns the weighted
    average of the specification:
    per present key the contribution [weight * normalize], or
    [weight * (1 - normalize)] for an inverted key, with
    [normalize = raw value / max value]; the sum of the contributions
    divided by the sum of the weights, both taken over the present keys in
    table order; rounded to three decimal places.  With [review_rating = 5.0]
    as the only scored key the score is [1.0], and with [return_rate = 1.0]
    as the only scored key it is [0.0]. *)
Theorem score_weighted_average (float_of_str : string -> option float) :
  (forall self,
     numeric_scores (signals self) ->
     (exists k, In k scored_keys /\ dict_get k (signals self) <> None) ->
     score float_of_str self = Ok (Some (weighted_average (signals self))))
  /\ (forall self v,
        dict_get "disclose:review_rating" (signals self) = Some v ->
        number v = Some 5.0%float ->
        dict_get "disclose:return_rate" (signals self) = None ->
        dict_get "disclose:dispute_rate" (signals self) = None ->
        dict_get "disclose:fulfillment_days_p50" (signals self) = None ->
        score float_of_str self = Ok (Some 1.0%float))
  /\ (forall self v,
        dict_get "disclose:return_rate" (signals self) = Some v ->
        number v = Some 1.0%float ->
        dict_get "disclose:review_rating" (signals self) = None ->
        dict_get "disclose:dispute_rate" (signals self) = None ->
        dict_get "disclose:fulfillment_days_p50" (signals self) = None ->
        score float_of_str self = Ok (Some 0.0%float)).
Proof.
  assert (A : forall self,
             numeric_scores (signals self) ->
             (exists k, In k scored_keys /\ dict_get k (signals self) <> None) ->
             score float_of_str self = Ok (Some (weighted_average (signals self)))).
  { intros self Hnum [k [Hk Hpresent]].
    assert (P : forall key,
               In key scored_keys -> dict_get key (signals self) <> None ->
               raw_value (signals self) key <> None).
    { intros key Hin Hp. unfold raw_value.
      destruct (dict_get key (signals self)) as [v|] eqn:E; [|congruence].
      exact (Hnum key v Hin E). }
    pose proof (P k Hk Hpresent) as Hraw. clear P Hpresent.
    unfold score, weights. cbn [score_loop].
    rewrite score_step_numeric by (intros v; apply Hnum; simpl; auto 6).
    cbn [bind].
    destruct (raw_value (signals self) "disclose:review_rating") as [x1|] eqn:E1;
      (rewrite score_step_numeric by (intros v; apply Hnum; simpl; auto 6));
      cbn [bind];
      destruct (raw_value (signals self) "disclose:return_rate") as [x2|] eqn:E2;
      (rewrite score_step_numeric by (intros v; apply Hnum; simpl; auto 6));
      cbn [bind];
      destruct (raw_value (signals self) "disclose:dispute_rate") as [x3|] eqn:E3;
      (rewrite score_step_numeric by (intros v; apply Hnum; simpl; auto 6));
      cbn [bind];
      destruct (raw_value (signals self) "disclose:fulfillment_days_p50")
        as [x4|] eqn:E4;
      unfold weighted_average, contribution_sum, weight_sum, scoring_table,
        contribution;
      cbn [fold_left sk_key sk_max sk_weight sk_inverted];
      rewrite ?E1, ?E2, ?E3, ?E4;
      try reflexivity.
    exfalso.
    simpl in Hk. destruct Hk as [<-|[<-|[<-|[<-|[]]]]]; congruence. }
  split; [exact A|]. split.
  - intros self v Hv Hn H2 H3 H4.
    rewrite A.
    + unfold weighted_average, contribution_sum, weight_sum, scoring_table,
        contribution, raw_value.
      cbn [fold_left sk_key sk_max sk_weight sk_inverted].
      rewrite Hv, Hn, H2, H3, H4. vm_compute. reflexivity.
    + intros k v' Hin Hk. simpl in Hin.
      destruct Hin as [<-|[<-|[<-|[<-|[]]]]]; congruence.
    + exists "disclose:review_rating". split; [simpl; auto | congruence].
  - intros self v Hv Hn H1 H3 H4.
    rewrite A.
    + unfold weighted_average, contribution_sum, weight_sum, scoring_table,
        contribution, raw_value.
      cbn [fold_left sk_key sk_max sk_weight sk_inverted].
      rewrite Hv, Hn, H1, H3, H4. vm_compute. reflexivity.
    + intros k v' Hin Hk. simpl in Hin.
      destruct Hin as [<-|[<-|[<-|[<-|[]]]]]; congruence.
    + exists "disclose:return_rate". split; [simpl; auto | congruence].
Qed.

Lemma score_weighted_average_witness :
  score rejecting_parser rated_result
  = Ok (Some (weighted_average (signals rated_result)))
  /\ weighted_average (signals rated_result) = 0.873%float.
Proof.
  split; [|vm_compute; reflexivity].
  apply (proj1 (score_weighted_average rejecting_parser) rated_result).
  - intros k v Hin. simpl in Hin.
    destruct Hin as [<-|[<-|[<-|[<-|[]]]]]; simpl; intros [= <-]; discriminate.
  - exists "disclose:review_rating". split; [simpl; auto | discriminate].
Defined.

(* ------------------------------------------------------------------ *)
(** ** C8: value formatting *)

(** C8: [review_rating] with value 4.5 renders as [4.5/5.0], [return_rate]
    with value 0.153 as [15.3%] and [dispute_rate] with value 0.0169 as
    [1.69%]. *)
Theorem format_value_examples (float_of_str : string -> option float)
    (str_of_container : json -> string) :
  _format_value float_of_str str_of_container "review_rating" (JFloat 4.5)
  = Ok "4.5/5.0"
  /\ _format_value float_of_str str_of_container "return_rate" (JFloat 0.153)
     = Ok "15.3%"
  /\ _format_value float_of_str str_of_container "dispute_rate" (JFloat 0.0169)
     = Ok "1.69%".
Proof. repeat split; vm_compute; reflexivity. Qed.

(* ------------------------------------------------------------------ *)
(** ** C10: the tool-call handler *)

(** C10: for a tool name other than [fetch_merchant_trust_signals] and any
    input mapping the handler opens no URL and returns
    ["Unknown tool: " ++ tool_name]; for that name, with a string under
    [merchant_domain], it opens the target URL of the domain and returns
    the [summary] of the result [fetch_signals] returns. *)
Theorem handle_tool_call_dispatch (float_of_str : string -> option float)
    (str_of_container : json -> string) (net : network) :
  (forall tool_name tool_input,
     tool_name <> "fetch_merchant_trust_signals" ->
     handle_tool_call float_of_str str_of_container net tool_name tool_input
     = ([], Ok ("Unknown tool: " ++ tool_name)))
  /\ (forall tool_input domain result,
        dict_get "merchant_domain" tool_input = Some (JStr domain) ->
        snd (fetch_signals net domain
               (match dict_get "signals" tool_input with
                | Some v => v
                | None => JNull
                end))
        = Ok result ->
        handle_tool_call float_of_str str_of_container net
          "fetch_merchant_trust_signals" tool_input
        = ([target_url domain], summary float_of_str str_of_container result)).
Proof.
  split.
  - intros tool_name tool_input Hne. unfold handle_tool_call.
    destruct (String.eqb_spec tool_name "fetch_merchant_trust_signals");
      [contradiction | reflexivity].
  - intros tool_input domain result Hd Hr. unfold handle_tool_call.
    cbn [String.eqb Ascii.eqb Bool.eqb negb]. rewrite Hd.
    destruct (fetch_signals net domain _) as [opened fetched] eqn:E.
    cbn [snd] in Hr. subst fetched. cbn [bind].
    unfold fetch_signals in E. injection E as <- _. reflexivity.
Qed.

Lemma handle_tool_call_dispatch_witness :
  handle_tool_call rejecting_parser elided_container (always (HTTPError 404))
    "lookup_merchant" [("merchant_domain", JStr "shop.example")]
  = ([], Ok ("Unknown tool: " ++ "lookup_merchant")).
Proof.
  apply (proj1 (handle_tool_call_dispatch rejecting_parser elided_container
                  (always (HTTPError 404)))).
  discriminate.
Defined.

(* ================================================================== *)
(** * Further properties of the module *)

(* ------------------------------------------------------------------ *)
(** ** The normalised domain *)

Lemma rstrip_no_trailing (c : ascii) (s : string) :
  PyStr.endswith (PyStr.rstrip c s) c = false.
Proof.
  induction s as [|a t IH]; [reflexivity|].
  cbn [PyStr.rstrip].
  destruct (PyStr.rstrip c t) as [|b t'] eqn:E.
  - destruct (Ascii.eqb a c) eqn:Ea; [reflexivity|]. simpl. exact Ea.
  - exact IH.
Qed.

Lemma startswith_split (s p : string) :
  PyStr.startswith s p = true -> s = p ++ PyStr.drop (String.length p) s.
Proof.
  unfold PyStr.startswith. revert s.
  induction p as [|a p IH]; intros s H; [reflexivity|].
  destruct s as [|b s]; [discriminate|].
  cbn [String.prefix] in H.
  destruct (ascii_dec a b) as [->|_]; [|discriminate].
  cbn [String.length PyStr.drop append]. f_equal. now apply IH.
Qed.

Lemma removeprefix_no_trailing (c : ascii) (s p : string) :
  PyStr.endswith s c = false ->
  PyStr.endswith (PyStr.removeprefix s p) c = false.
Proof.
  intros H. unfold PyStr.removeprefix.
  destruct (PyStr.startswith s p) eqn:E; [|exact H].
  destruct (PyStr.drop (String.length p) s) as [|b t] eqn:D; [reflexivity|].
  rewrite (startswith_split s p E), D in H.
  rewrite endswith_app in H by discriminate. exact H.
Qed.

(** X1: the normalised domain never ends with a slash, whatever the
    input. *)
Theorem normalize_domain_no_trailing_slash (merchant_domain : string) :
  PyStr.endswith (normalize_domain merchant_domain) "/" = false.
Proof.
  unfold normalize_domain.
  apply removeprefix_no_trailing, removeprefix_no_trailing, rstrip_no_trailing.
Qed.

(* ------------------------------------------------------------------ *)
(** ** The labels of the summary lines *)

Lemma remove_all_absent (old s : string) :
  PyStr.contains s old = false -> PyStr.remove_all_aux old 0 s = s.
Proof.
  induction s as [|a t IH]; [reflexivity|].
  cbn [PyStr.contains PyStr.remove_all_aux].
  intros H. apply orb_false_iff in H. destruct H as [Hs Ht].
  rewrite Hs, (IH Ht). reflexivity.
Qed.

Lemma remove_all_prefixed (s : string) :
  PyStr.remove_all ("disclose:" ++ s) "disclose:" = PyStr.remove_all s "disclose:".
Proof.
  unfold PyStr.remove_all.
  cbn [append PyStr.remove_all_aux].
  assert (E : PyStr.startswith
                (String "d" (String "i" (String "s" (String "c" (String "l"
                  (String "o" (String "s" (String "e" (String ":" s)))))))))
                "disclose:" = true).
  { unfold PyStr.startswith. simpl. destruct s; reflexivity. }
  rewrite E. reflexivity.
Qed.

(** X2: in the loop of [summary] over the signals, the line for a key
    [disclose:name] whose name holds no further [disclose:] is
    ["  name: "] followed by the value formatted under the key [name]
    (the line is missing, and the loop raises, when formatting raises);
    a key that starts with the prefix twice gives the same line, since
    every occurrence of the prefix is removed and not only the first. *)
Theorem summary_label (float_of_str : string -> option float)
    (str_of_container : json -> string) (name : string) (value : json)
    (rest : dict) :
  PyStr.contains name "disclose:" = false ->
  signal_lines float_of_str str_of_container (("disclose:" ++ name, value) :: rest)
  = (text <- _format_value float_of_str str_of_container name value ;;
     lines <- signal_lines float_of_str str_of_container rest ;;
     Ok (("  " ++ name ++ ": " ++ text) :: lines))
  /\ signal_lines float_of_str str_of_container
       (("disclose:" ++ "disclose:" ++ name, value) :: rest)
     = signal_lines float_of_str str_of_container
         (("disclose:" ++ name, value) :: rest).
Proof.
  intros H.
  assert (E : PyStr.remove_all ("disclose:" ++ name) "disclose:" = name).
  { rewrite remove_all_prefixed. unfold PyStr.remove_all.
    now apply remove_all_absent. }
  split.
  - cbn [signal_lines]. rewrite E. reflexivity.
  - cbn [signal_lines]. now rewrite (remove_all_prefixed ("disclose:" ++ name)).
Qed.

Lemma summary_label_witness :
  signal_lines rejecting_parser elided_container
    (("disclose:" ++ "return_rate", JFloat 0.08) :: [])
  = (text <- _format_value rejecting_parser elided_container "return_rate"
               (JFloat 0.08) ;;
     lines <- signal_lines rejecting_parser elided_container [] ;;
     Ok (("  " ++ "return_rate" ++ ": " ++ text) :: lines))
  /\ signal_lines rejecting_parser elided_container
       (("disclose:" ++ "disclose:" ++ "return_rate", JFloat 0.08) :: [])
     = signal_lines rejecting_parser elided_container
         (("disclose:" ++ "return_rate", JFloat 0.08) :: []).
Proof.
  apply (summary_label rejecting_parser elided_container "return_rate"
           (JFloat 0.08) []).
  reflexivity.
Defined.

(* ------------------------------------------------------------------ *)
(** ** Extraction: errors, keys and order *)

(** X3: [_extract_signals] raises [AttributeError] on every document that
    is not an object, [TypeError] on every object whose [@graph] is
    [null], a boolean or a number, and returns a mapping on every other
    object. *)
Theorem extract_signals_errors :
  (forall raw, (forall d, raw <> JObj d) ->
     _extract_signals raw = Raise AttributeError)
  /\ (forall d, graph_iterable d = false ->
        _extract_signals (JObj d) = Raise TypeError)
  /\ (forall d, graph_iterable d = true ->
        exists all_signals, _extract_signals (JObj d) = Ok all_signals).
Proof.
  split; [|split].
  - intros raw H. destruct raw; try reflexivity. now contradiction (H d).
  - intros d H. unfold _extract_signals, graph_iterable in *.
    cbn [py_items py_get bind].
    destruct (dict_get "@graph" d) as [[| | | | | |]|]; try discriminate;
      reflexivity.
  - intros d H. eexists. exact (extract_signals_object d H).
Qed.

Lemma extract_signals_errors_witness :
  _extract_signals (JObj [("@graph", JNull); ("disclose:return_rate", JInt 0)])
  = Raise TypeError.
Proof.
  apply (proj1 (proj2 extract_signals_errors)). reflexivity.
Defined.

Lemma dict_get_of_key (k : string) (d : dict) :
  In k (dict_keys d) -> exists v, dict_get k d = Some v.
Proof.
  induction d as [|[k0 v0] t IH]; simpl; [intros []|].
  destruct (String.eqb_spec k k0) as [->|Hne]; [intros _; now exists v0|].
  intros [E|H]; [symmetry in E; contradiction | now apply IH].
Qed.

Lemma extract_keys_prefixed (raw : json) (all_signals : dict) (k : string) :
  _extract_signals raw = Ok all_signals ->
  In k (dict_keys all_signals) ->
  PyStr.startswith k "disclose:" = true.
Proof.
  unfold _extract_signals.
  destruct raw as [| | | | | |d]; try discriminate.
  cbn [py_items py_get bind].
  destruct (py_iter _) as [nodes|e]; [|discriminate].
  cbn [bind]. intros [= <-] Hin.
  apply dict_get_of_key in Hin. destruct Hin as [v Hv].
  rewrite collect_nodes_get, collect_get in Hv.
  destruct (PyStr.startswith k "disclose:"); [reflexivity | discriminate].
Qed.

(** X4: every key of a mapping that [_extract_signals] returns starts with
    [disclose:]. *)
Theorem extract_signals_only_prefixed (raw : json) (all_signals : dict)
    (k : string) :
  _extract_signals raw = Ok all_signals ->
  In k (dict_keys all_signals) ->
  PyStr.startswith k "disclose:" = true.
Proof. exact (extract_keys_prefixed raw all_signals k). Qed.

Lemma extract_signals_only_prefixed_witness :
  PyStr.startswith "disclose:dispute_rate" "disclose:" = true.
Proof.
  apply (extract_signals_only_prefixed (JObj merged_document)
           (signals merged_result) "disclose:dispute_rate").
  - reflexivity.
  - simpl. auto.
Defined.

Lemma dict_set_fresh (k : string) (v : json) (d : dict) :
  ~ In k (dict_keys d) -> dict_set k v d = (d ++ [(k, v)])%list.
Proof.
  induction d as [|[k0 v0] t IH]; simpl; intros H; [reflexivity|].
  destruct (String.eqb_spec k k0) as [->|_].
  - exfalso. apply H. now left.
  - rewrite IH; [reflexivity|]. intros Hin. apply H. now right.
Qed.

(** Writing selected items with fresh, pairwise distinct keys appends
    them in order. *)
Lemma select_fresh (p : string -> bool) (items acc : dict) :
  NoDup (dict_keys acc ++ dict_keys items) ->
  fold_left
    (fun a kv => if p (fst kv) then dict_set (fst kv) (snd kv) a else a)
    items acc
  = (acc ++ filter (fun kv => p (fst kv)) items)%list.
Proof.
  revert acc.
  induction items as [|[k0 v0] t IH]; intros acc H.
  - simpl. now rewrite app_nil_r.
  - cbn [fold_left filter fst snd].
    cbn [dict_keys map fst] in H.
    pose proof (NoDup_remove_1 _ _ _ H) as H1.
    pose proof (NoDup_remove_2 _ _ _ H) as H2.
    destruct (p k0).
    + rewrite dict_set_fresh by (intros Hin; apply H2, in_or_app; now left).
      rewrite IH.
      * now rewrite <- app_assoc.
      * unfold dict_keys in *. rewrite map_app, <- app_assoc. exact H.
    + now apply IH.
Qed.

Lemma extract_flat (d : dict) :
  unique_keys d ->
  dict_get "@graph" d = None ->
  _extract_signals (JObj d)
  = Ok (filter (fun kv => PyStr.startswith (fst kv) "disclose:") d).
Proof.
  intros Hd Hg.
  rewrite extract_signals_object
    by (unfold graph_iterable; now rewrite Hg).
  unfold graph_nodes. rewrite Hg. cbn [fold_left]. f_equal.
  exact (select_fresh (fun s => PyStr.startswith s "disclose:") d [] Hd).
Qed.

(** X5: on a document without [@graph] (keys pairwise distinct, as in any
    dict) extraction returns exactly the items of the root whose key
    starts with [disclose:], in document order. *)
Theorem extract_signals_flat (d : dict) :
  unique_keys d ->
  dict_get "@graph" d = None ->
  _extract_signals (JObj d)
  = Ok (filter (fun kv => PyStr.startswith (fst kv) "disclose:") d).
Proof. exact (extract_flat d). Qed.

Lemma filter_all (d : dict) :
  (forall k, In k (dict_keys d) -> PyStr.startswith k "disclose:" = true) ->
  filter (fun kv => PyStr.startswith (fst kv) "disclose:") d = d.
Proof.
  induction d as [|[k v] t IH]; intros H; [reflexivity|].
  cbn [filter fst]. rewrite (H k) by now left.
  f_equal. apply IH. intros k' Hk'. apply H. now right.
Qed.

(** X6: extraction is idempotent: the mapping it returns, read as a
    document, is extracted to itself. *)
Theorem extract_signals_idempotent (raw : json) (all_signals : dict) :
  _extract_signals raw = Ok all_signals ->
  _extract_signals (JObj all_signals) = Ok all_signals.
Proof.
  intros H.
  rewrite extract_flat.
  - rewrite filter_all; [reflexivity|].
    intros k. exact (extract_keys_prefixed _ _ k H).
  - exact (extract_signals_unique _ _ H).
  - destruct (dict_get "@graph" all_signals) as [v|] eqn:E; [|reflexivity].
    apply dict_get_present in E.
    pose proof (extract_keys_prefixed _ _ "@graph" H E) as F. discriminate.
Qed.

Lemma extract_signals_idempotent_witness :
  _extract_signals (JObj (signals merged_result)) = Ok (signals merged_result).
Proof.
  apply (extract_signals_idempotent (JObj merged_document)). reflexivity.
Defined.

(** The comprehension adds no key of its own. *)
Lemma comprehension_keys (wanted : json) (items acc filtered : dict)
    (k : string) :
  comprehension wanted items acc = Ok filtered ->
  In k (dict_keys filtered) ->
  In k (dict_keys acc) \/ In k (dict_keys items).
Proof.
  revert acc.
  induction items as [|[k0 v0] t IH]; intros acc H Hin.
  - injection H as <-. now left.
  - cbn [comprehension] in H.
    destruct (py_contains wanted k0) as [keep|e]; [|discriminate].
    cbn [bind] in H.
    destruct (IH _ H Hin) as [Ha|Ht]; [|right; now right].
    destruct keep; [|now left].
    apply dict_keys_set in Ha. destruct Ha as [->|Ha];
      [right; now left | now left].
Qed.

(** X7: every signal of a result that [fetch_signals] returns has a key
    that starts with [disclose:], whatever keys were requested and
    whatever their type. *)
Theorem fetch_signals_keys_prefixed (net : network) (domain : string)
    (wanted : json) (result : DiscloseSignals) (k : string) :
  snd (fetch_signals net domain wanted) = Ok result ->
  In k (dict_keys (signals result)) ->
  PyStr.startswith k "disclose:" = true.
Proof.
  unfold fetch_signals. cbn [snd].
  destruct (net _) as [code|reason| |text|document];
    try (intros [= <-] []).
  intros H Hin. apply parse_signals_result in H.
  destruct H as [all_signals [Hex [Hf _]]].
  apply (extract_keys_prefixed document all_signals k Hex).
  unfold filter_signals in Hf.
  destruct (truthy wanted); [|injection Hf as Hs; now rewrite Hs].
  destruct (comprehension_keys _ _ _ _ k Hf Hin) as [[]|H]. exact H.
Qed.

Lemma fetch_signals_keys_prefixed_witness :
  PyStr.startswith "disclose:return_rate" "disclose:" = true.
Proof.
  apply (fetch_signals_keys_prefixed (always (Loaded (JObj merged_document)))
           "shop.example" (JArr [JStr "disclose:return_rate"])
           {| merchant_domain := "shop.example";
              raw := JObj merged_document;
              signals := [("disclose:return_rate", JFloat 0.02)];
              verifier := JNull;
              verified_at := JNull;
              error := None |}).
  - reflexivity.
  - simpl. auto.
Defined.

Lemma extract_signals_flat_witness :
  _extract_signals (JObj flat_document)
  = Ok (filter (fun kv => PyStr.startswith (fst kv) "disclose:") flat_document).
Proof.
  apply (extract_signals_flat flat_document).
  - unfold unique_keys. simpl.
    repeat (constructor; [simpl; intuition discriminate|]). constructor.
  - reflexivity.
Defined.

(* ------------------------------------------------------------------ *)
(** ** [fetch_signals]: when it returns, and what the result holds *)

Lemma read_verifier_object (d : dict) :
  verifier_is_object d = true ->
  read_verifier (JObj d)
  = Ok match dict_get "disclose:verifier" d with
       | Some (JObj o) =>
           match dict_get "@id" o with
           | Some id => if truthy id then id else JObj o
           | None => JObj o
           end
       | _ => JNull
       end.
Proof.
  unfold verifier_is_object, read_verifier. cbn [py_get bind].
  destruct (dict_get "disclose:verifier" d) as [[| | | | | |o]|];
    try discriminate; intros _; cbn [py_get bind dict_get truthy];
    [|reflexivity].
  destruct (dict_get "@id" o) as [id|]; cbn [truthy]; [|reflexivity].
  destruct (truthy id); reflexivity.
Qed.

Lemma read_verifier_other (d : dict) :
  verifier_is_object d = false ->
  read_verifier (JObj d) = Raise AttributeError.
Proof.
  unfold verifier_is_object, read_verifier. cbn [py_get bind].
  destruct (dict_get "disclose:verifier" d) as [[| | | | | |o]|];
    try discriminate; reflexivity.
Qed.

Lemma filter_signals_none_or_list (wanted : json) (all_signals : dict) :
  none_or_list wanted = true ->
  exists filtered, filter_signals wanted all_signals = Ok filtered.
Proof.
  destruct wanted as [| | | | |l|]; try discriminate; intros _.
  - now exists all_signals.
  - unfold filter_signals. destruct l as [|w ws]; cbn [truthy].
    + now exists all_signals.
    + rewrite comprehension_list. eexists. reflexivity.
Qed.

(** X8: with the requested keys [None] or a list, [fetch_signals] returns
    a result for a loaded document exactly when the document is an object
    whose [@graph] is absent or iterable and whose [disclose:verifier] is
    absent or an object; on every other document it raises. *)
Theorem fetch_signals_returns_iff (net : network) (domain : string)
    (wanted raw : json) :
  net (target_url domain) = Loaded raw ->
  none_or_list wanted = true ->
  (exists result, snd (fetch_signals net domain wanted) = Ok result)
  <-> (exists d,
         raw = JObj d /\ graph_iterable d = true /\ verifier_is_object d = true).
Proof.
  intros Hnet Hw. rewrite (fetch_signals_loaded net domain wanted raw Hnet).
  split.
  - intros [result Hr].
    destruct raw as [| | | | | |d]; try discriminate Hr.
    exists d. split; [reflexivity|].
    unfold parse_signals in Hr.
    destruct (graph_iterable d) eqn:Hg.
    + split; [reflexivity|].
      rewrite (extract_signals_object d Hg) in Hr. cbn [bind] in Hr.
      destruct (filter_signals wanted _) as [filtered|e]; [|discriminate].
      cbn [bind] in Hr.
      destruct (verifier_is_object d) eqn:Hv; [reflexivity|].
      rewrite (read_verifier_other d Hv) in Hr. discriminate.
    + exfalso. revert Hr. unfold _extract_signals, graph_iterable in *.
      cbn [py_items py_get bind].
      destruct (dict_get "@graph" d) as [[| | | | | |]|]; discriminate.
  - intros [d [-> [Hg Hv]]]. unfold parse_signals.
    rewrite (extract_signals_object d Hg). cbn [bind].
    destruct (filter_signals_none_or_list wanted
                (fold_left collect_node (graph_nodes d) (collect d [])) Hw)
      as [filtered ->].
    cbn [bind]. rewrite (read_verifier_object d Hv). cbn [bind py_get].
    eexists. reflexivity.
Qed.

Lemma fetch_signals_returns_iff_witness :
  (exists result,
     snd (fetch_signals (always (Loaded (JObj merged_document)))
            "shop.example" JNull)
     = Ok result)
  <-> (exists d,
         JObj merged_document = JObj d
         /\ graph_iterable d = true /\ verifier_is_object d = true).
Proof.
  apply (fetch_signals_returns_iff (always (Loaded (JObj merged_document)))
           "shop.example" JNull (JObj merged_document)).
  - reflexivity.
  - reflexivity.
Defined.

(** X9: a result returned for a loaded object holds the normalised domain,
    the document itself and no [error]; its [verifier] is [None] when
    [disclose:verifier] is absent, the [@id] of the verifier object when
    that is truthy, and the verifier object itself otherwise; its
    [verified_at] is the value of [disclose:verified_at] whatever its
    type, [None] when absent. *)
Theorem fetch_signals_fields (net : network) (domain : string)
    (wanted : json) (d : dict) (result : DiscloseSignals) :
  net (target_url domain) = Loaded (JObj d) ->
  snd (fetch_signals net domain wanted) = Ok result ->
  merchant_domain result = normalize_domain domain
  /\ raw result = JObj d
  /\ error result = None
  /\ (dict_get "disclose:verifier" d = None -> verifier result = JNull)
  /\ (forall o id,
        dict_get "disclose:verifier" d = Some (JObj o) ->
        dict_get "@id" o = Some id -> truthy id = true ->
        verifier result = id)
  /\ (forall o,
        dict_get "disclose:verifier" d = Some (JObj o) ->
        (forall id, dict_get "@id" o = Some id -> truthy id = false) ->
        verifier result = JObj o)
  /\ verified_at result
     = match dict_get "disclose:verified_at" d with
       | Some v => v
       | None => JNull
       end.
Proof.
  intros Hnet Hr.
  rewrite (fetch_signals_loaded net domain wanted _ Hnet) in Hr.
  unfold parse_signals in Hr.
  destruct (_extract_signals (JObj d)) as [all_signals|e]; [|discriminate].
  cbn [bind] in Hr.
  destruct (filter_signals wanted all_signals) as [filtered|e]; [|discriminate].
  cbn [bind] in Hr.
  destruct (verifier_is_object d) eqn:Hv;
    [|rewrite (read_verifier_other d Hv) in Hr; discriminate].
  rewrite (read_verifier_object d Hv) in Hr. cbn [bind py_get] in Hr.
  injection Hr as <-. cbn.
  repeat split.
  - intros ->. reflexivity.
  - intros o id -> -> ->. reflexivity.
  - intros o -> H. destruct (dict_get "@id" o) as [id|]; [|reflexivity].
    now rewrite (H id eq_refl).
Qed.

Lemma fetch_signals_fields_witness :
  verifier
    {| merchant_domain := "shop.example";
       raw := JObj [("disclose:verifier", JObj [("@id", JStr "acme-audit")])];
       signals := [("disclose:verifier", JObj [("@id", JStr "acme-audit")])];
       verifier := JStr "acme-audit";
       verified_at := JNull;
       error := None |}
  = JStr "acme-audit".
Proof.
  refine (proj1 (proj2 (proj2 (proj2 (proj2
            (fetch_signals_fields
               (always (Loaded (JObj [("disclose:verifier",
                                       JObj [("@id", JStr "acme-audit")])])))
               "shop.example" JNull _ _ eq_refl eq_refl)))))
            [("@id", JStr "acme-audit")] (JStr "acme-audit")
            eq_refl eq_refl eq_refl).
Defined.

(* ------------------------------------------------------------------ *)
(** ** The handler, end to end *)

(** The handler on the recognised tool name and a string domain. *)
Lemma handle_tool_call_known (float_of_str : string -> option float)
    (str_of_container : json -> string) (net : network) (tool_input : dict)
    (domain : string) :
  dict_get "merchant_domain" tool_input = Some (JStr domain) ->
  handle_tool_call float_of_str str_of_container net
    "fetch_merchant_trust_signals" tool_input
  = ([target_url domain],
     result <- snd (fetch_signals net domain
                      (match dict_get "signals" tool_input with
                       | Some v => v
                       | None => JNull
                       end)) ;;
     summary float_of_str str_of_container result).
Proof.
  intros Hd. unfold handle_tool_call.
  cbn [String.eqb Ascii.eqb Bool.eqb negb]. rewrite Hd. reflexivity.
Qed.

Lemma select_none (p : string -> bool) (items acc : dict) :
  (forall k, In k (dict_keys items) -> p k = false) ->
  fold_left
    (fun a kv => if p (fst kv) then dict_set (fst kv) (snd kv) a else a)
    items acc
  = acc.
Proof.
  revert acc.
  induction items as [|[k0 v0] t IH]; intros acc H; [reflexivity|].
  cbn [fold_left fst snd]. rewrite (H k0) by now left.
  apply IH. intros k Hk. apply H. now right.
Qed.

Lemma collect_nodes_none (nodes : list json) (acc : dict) :
  (forall k, In k (dict_keys (flat_map node_items nodes)) ->
     PyStr.startswith k "disclose:" = false) ->
  fold_left collect_node nodes acc = acc.
Proof.
  revert acc.
  induction nodes as [|node rest IH]; intros acc H; [reflexivity|].
  cbn [fold_left]. rewrite collect_node_items.
  unfold collect.
  rewrite (select_none (fun s => PyStr.startswith s "disclose:")).
  - apply IH. intros k Hk. apply H. cbn [flat_map].
    unfold dict_keys in *. rewrite map_app. apply in_or_app. now right.
  - intros k Hk. apply H. cbn [flat_map].
    unfold dict_keys in *. rewrite map_app. apply in_or_app. now left.
Qed.

Lemma append_assoc3 (a b c : string) : (a ++ b) ++ c = a ++ b ++ c.
Proof. induction a as [|x a IH]; simpl; [reflexivity | now rewrite IH]. Qed.

(** The summary of a result without error, verifier and signals. *)
Lemma summary_nothing (float_of_str : string -> option float)
    (str_of_container : json -> string) (domain : string) (document : json)
    (failure : option string) :
  match failure with Some (String _ _) => False | _ => True end ->
  summary float_of_str str_of_container
    {| merchant_domain := domain; raw := document; signals := [];
       verifier := JNull; verified_at := JNull; error := failure |}
  = Ok ("[Disclose signals for " ++ domain ++ "]"
          ++ newline ++ "  No signals published.").
Proof.
  intros H. unfold summary. cbn.
  destruct failure as [[|a e]|]; try contradiction;
    cbn; now rewrite !append_assoc3.
Qed.

(** X10: for a string [merchant_domain] and a loaded document that is an
    object whose [@graph] is absent or can be iterated, when no key of the
    document, at the root or in an object of [@graph], starts with
    [disclose:], the handler returns the two-line summary that says no
    signals are published, whatever keys were requested. *)
Theorem handle_tool_call_no_signals (float_of_str : string -> option float)
    (str_of_container : json -> string) (net : network) (tool_input : dict)
    (domain : string) (d : dict) :
  dict_get "merchant_domain" tool_input = Some (JStr domain) ->
  net (target_url domain) = Loaded (JObj d) ->
  graph_iterable d = true ->
  (forall k, In k (dict_keys d) -> PyStr.startswith k "disclose:" = false) ->
  (forall k, In k (dict_keys (graph_items d)) ->
     PyStr.startswith k "disclose:" = false) ->
  handle_tool_call float_of_str str_of_container net
    "fetch_merchant_trust_signals" tool_input
  = ([target_url domain],
     Ok ("[Disclose signals for " ++ normalize_domain domain ++ "]"
           ++ newline ++ "  No signals published.")).
Proof.
  intros Hd Hnet Hg Hroot Hgraph.
  rewrite (handle_tool_call_known _ _ net tool_input domain Hd). f_equal.
  rewrite (fetch_signals_loaded net domain _ _ Hnet).
  unfold parse_signals.
  rewrite (extract_signals_object d Hg).
  rewrite (collect_nodes_none _ _ Hgraph).
  unfold collect.
  rewrite (select_none (fun s => PyStr.startswith s "disclose:") d [] Hroot).
  cbn [bind].
  assert (F : forall wanted, filter_signals wanted [] = Ok []).
  { intros wanted. unfold filter_signals. now destruct (truthy wanted). }
  rewrite F. cbn [bind].
  assert (A : forall k, PyStr.startswith k "disclose:" = true ->
                        dict_get k d = None).
  { intros k Hk. destruct (dict_get k d) as [v|] eqn:E; [|reflexivity].
    apply dict_get_present in E. rewrite (Hroot k E) in Hk. discriminate. }
  unfold read_verifier. cbn [py_get bind].
  rewrite !(A "disclose:verifier" eq_refl), (A "disclose:verified_at" eq_refl).
  cbn [py_get bind dict_get truthy]. now apply summary_nothing.
Qed.

Lemma handle_tool_call_no_signals_witness :
  handle_tool_call rejecting_parser elided_container
    (always (Loaded (JObj bare_document)))
    "fetch_merchant_trust_signals" shop_input
  = ([target_url "https://shop.example/"],
     Ok ("[Disclose signals for " ++ normalize_domain "https://shop.example/"
           ++ "]" ++ newline ++ "  No signals published.")).
Proof.
  apply (handle_tool_call_no_signals rejecting_parser elided_container
           (always (Loaded (JObj bare_document))) shop_input
           "https://shop.example/" bare_document).
  - reflexivity.
  - reflexivity.
  - reflexivity.
  - simpl. intros k [<-|[<-|[<-|[]]]]; reflexivity.
  - simpl. intros k [<-|[]]; reflexivity.
Defined.

(** X11: when the request fails, the handler returns one line that names
    the normalised domain and the error: the status code for an HTTP
    error, the fixed message for invalid JSON, and the reason or the
    exception text when that is not empty. *)
Theorem handle_tool_call_failure (float_of_str : string -> option float)
    (str_of_container : json -> string) (net : network) (tool_input : dict)
    (domain : string) :
  dict_get "merchant_domain" tool_input = Some (JStr domain) ->
  forall message,
    (exists code,
       net (target_url domain) = HTTPError code
       /\ message = "HTTP " ++ str_of_int code
                      ++ ": merchant may not support Disclose Framework")
    \/ (net (target_url domain) = JSONDecodeError
        /\ message = "Invalid JSON at endpoint")
    \/ (message <> ""
        /\ (net (target_url domain) = URLError message
            \/ net (target_url domain) = OtherException message)) ->
    handle_tool_call float_of_str str_of_container net
      "fetch_merchant_trust_signals" tool_input
    = ([target_url domain],
       Ok ("[Disclose] Could not retrieve signals for "
             ++ normalize_domain domain ++ ": " ++ message)).
Proof.
  intros Hd message H.
  rewrite (handle_tool_call_known _ _ net tool_input domain Hd). f_equal.
  unfold fetch_signals. cbn [snd]. fold (target_url domain).
  destruct H as [[code [-> ->]]|[[-> ->]|[Hne [->| ->]]]]; cbn [bind];
    try reflexivity;
    (destruct message; [contradiction | reflexivity]).
Qed.

Lemma handle_tool_call_failure_witness :
  handle_tool_call rejecting_parser elided_container (always (HTTPError 404))
    "fetch_merchant_trust_signals" shop_input
  = ([target_url "https://shop.example/"],
     Ok ("[Disclose] Could not retrieve signals for "
           ++ normalize_domain "https://shop.example/" ++ ": "
           ++ "HTTP 404: merchant may not support Disclose Framework")).
Proof.
  apply (handle_tool_call_failure rejecting_parser elided_container
           (always (HTTPError 404)) shop_input "https://shop.example/").
  - reflexivity.
  - left. exists 404%Z. split; reflexivity.
Defined.

(** X12: a failure whose reason or exception text is the empty string is
    not reported: [if self.error] is false for it, and the handler returns
    the same two lines as for a document without signals. *)
Theorem handle_tool_call_silent_failure (float_of_str : string -> option float)
    (str_of_container : json -> string) (net : network) (tool_input : dict)
    (domain : string) :
  dict_get "merchant_domain" tool_input = Some (JStr domain) ->
  net (target_url domain) = URLError ""
  \/ net (target_url domain) = OtherException "" ->
  handle_tool_call float_of_str str_of_container net
    "fetch_merchant_trust_signals" tool_input
  = ([target_url domain],
     Ok ("[Disclose signals for " ++ normalize_domain domain ++ "]"
           ++ newline ++ "  No signals published.")).
Proof.
  intros Hd H.
  rewrite (handle_tool_call_known _ _ net tool_input domain Hd). f_equal.
  unfold fetch_signals. cbn [snd]. fold (target_url domain).
  destruct H as [->| ->]; cbn [bind]; now apply summary_nothing.
Qed.

Lemma handle_tool_call_silent_failure_witness :
  handle_tool_call rejecting_parser elided_container (always (URLError ""))
    "fetch_merchant_trust_signals" shop_input
  = ([target_url "https://shop.example/"],
     Ok ("[Disclose signals for " ++ normalize_domain "https://shop.example/"
           ++ "]" ++ newline ++ "  No signals published.")).
Proof.
  apply (handle_tool_call_silent_failure rejecting_parser elided_container
           (always (URLError "")) shop_input "https://shop.example/").
  - reflexivity.
  - left. reflexivity.
Defined.

(** X13: for the recognised tool name the handler opens the target URL of
    the given domain once and nothing else; it opens no URL for another
    tool name, without [merchant_domain] ([KeyError]) or with a
    [merchant_domain] that is not a string ([AttributeError]). *)
Theorem handle_tool_call_requests (float_of_str : string -> option float)
    (str_of_container : json -> string) (net : network) (tool_name : string)
    (tool_input : dict) :
  (forall domain,
     tool_name = "fetch_merchant_trust_signals" ->
     dict_get "merchant_domain" tool_input = Some (JStr domain) ->
     fst (handle_tool_call float_of_str str_of_container net tool_name
            tool_input)
     = ["https://" ++ normalize_domain domain ++ "/.well-known/disclose.json"])
  /\ (tool_name = "fetch_merchant_trust_signals" ->
      dict_get "merchant_domain" tool_input = None ->
      handle_tool_call float_of_str str_of_container net tool_name tool_input
      = ([], Raise KeyError))
  /\ (forall v,
        tool_name = "fetch_merchant_trust_signals" ->
        dict_get "merchant_domain" tool_input = Some v ->
        (forall s, v <> JStr s) ->
        handle_tool_call float_of_str str_of_container net tool_name tool_input
        = ([], Raise AttributeError))
  /\ (tool_name <> "fetch_merchant_trust_signals" ->
      fst (handle_tool_call float_of_str str_of_container net tool_name
             tool_input)
      = []).
Proof.
  repeat split.
  - intros domain -> Hd.
    now rewrite (handle_tool_call_known _ _ net tool_input domain Hd).
  - intros -> Hd. unfold handle_tool_call.
    cbn [String.eqb Ascii.eqb Bool.eqb negb]. now rewrite Hd.
  - intros v -> Hd Hv. unfold handle_tool_call.
    cbn [String.eqb Ascii.eqb Bool.eqb negb]. rewrite Hd.
    destruct v; try reflexivity. now contradiction (Hv s).
  - intros Hne. unfold handle_tool_call.
    destruct (String.eqb_spec tool_name "fetch_merchant_trust_signals");
      [contradiction | reflexivity].
Qed.

Lemma handle_tool_call_requests_witness :
  handle_tool_call rejecting_parser elided_container (always JSONDecodeError)
    "fetch_merchant_trust_signals" [("domain", JStr "shop.example")]
  = ([], Raise KeyError).
Proof.
  apply (proj1 (proj2 (handle_tool_call_requests rejecting_parser
                         elided_container (always JSONDecodeError)
                         "fetch_merchant_trust_signals"
                         [("domain", JStr "shop.example")]))).
  - reflexivity.
  - reflexivity.
Defined.

(* ------------------------------------------------------------------ *)
(** ** When [summary] raises *)

Lemma format_value_returns (float_of_str : string -> option float)
    (str_of_container : json -> string) (key : string) (value : json) :
  (exists text, _format_value float_of_str str_of_container key value = Ok text)
  <-> (rate_key key = true -> exists x, py_float float_of_str value = Ok x).
Proof.
  unfold _format_value, rate_key.
  destruct (String.eqb key "return_rate");
    [|destruct (String.eqb key "dispute_rate")]; cbn [orb].
  - destruct (py_float float_of_str value) as [x|e]; cbn [bind]; split.
    + intros _ _. now exists x.
    + intros _. eexists. reflexivity.
    + intros [text H]. discriminate.
    + intros H. destruct (H eq_refl) as [x Hx]. discriminate.
  - destruct (py_float float_of_str value) as [x|e]; cbn [bind]; split.
    + intros _ _. now exists x.
    + intros _. eexists. reflexivity.
    + intros [text H]. discriminate.
    + intros H. destruct (H eq_refl) as [x Hx]. discriminate.
  - split; [intros _ H; discriminate|]. intros _.
    destruct (String.eqb key "review_rating");
      [|destruct (PyStr.contains key "days")]; eexists; reflexivity.
Qed.

Lemma signal_lines_returns (float_of_str : string -> option float)
    (str_of_container : json -> string) (items : dict) :
  (exists lines, signal_lines float_of_str str_of_container items = Ok lines)
  <-> (forall k v,
         In (k, v) items ->
         rate_key (PyStr.remove_all k "disclose:") = true ->
         exists x, py_float float_of_str v = Ok x).
Proof.
  induction items as [|[k0 v0] t IH].
  - split; [intros _ k v [] | intros _; now exists []].
  - cbn [signal_lines].
    pose proof (format_value_returns float_of_str str_of_container
                  (PyStr.remove_all k0 "disclose:") v0) as F.
    destruct (_format_value float_of_str str_of_container
                (PyStr.remove_all k0 "disclose:") v0) as [text|e]; cbn [bind].
    + destruct (signal_lines float_of_str str_of_container t) as [lines|e];
        cbn [bind]; split.
      * intros _ k v [[= <- <-]|Hin].
        -- apply F. now exists text.
        -- apply (proj1 IH); [now exists lines | exact Hin].
      * intros _. eexists. reflexivity.
      * intros [lines H]. discriminate.
      * intros H. exfalso.
        assert (E : exists lines, @Raise (list string) e = Ok lines).
        { apply (proj2 IH). intros k v Hin. apply H. now right. }
        destruct E as [lines E]. discriminate.
    + split; [intros [lines H]; discriminate|].
      intros H. exfalso.
      assert (E : exists text, @Raise string e = Ok text).
      { apply (proj2 F). apply (H k0 v0). now left. }
      destruct E as [text E]. discriminate.
Qed.

(** X14: for a result whose integers all print (at most 4300 digits, as
    in every value [json.loads] returns), [summary] returns exactly when
    the error line is shown or every signal labelled [return_rate] or
    [dispute_rate] holds a value that [float()] accepts; otherwise it
    raises (a rate bound to [null], a list, an object or an unparsable
    string makes it raise). *)
Theorem summary_returns_iff (float_of_str : string -> option float)
    (str_of_container : json -> string) (self : DiscloseSignals) :
  printable_result self = true ->
  (exists text, summary float_of_str str_of_container self = Ok text)
  <-> (error_shown self = true
       \/ forall k v,
            In (k, v) (signals self) ->
            rate_key (PyStr.remove_all k "disclose:") = true ->
            exists x, py_float float_of_str v = Ok x).
Proof.
  intros _.
  pose proof (signal_lines_returns float_of_str str_of_container (signals self))
    as L.
  unfold summary, error_shown.
  destruct (error self) as [[|a e]|].
  - destruct (signal_lines _ _ (signals self)) as [lines|ex]; cbn [bind]; split.
    + intros _. right. apply (proj1 L). now exists lines.
    + intros _. eexists. reflexivity.
    + intros [text H]. discriminate.
    + intros [H|H]; [discriminate|].
      destruct (proj2 L H) as [lines E]. discriminate.
  - split; [intros _; now left | intros _; eexists; reflexivity].
  - destruct (signal_lines _ _ (signals self)) as [lines|ex]; cbn [bind]; split.
    + intros _. right. apply (proj1 L). now exists lines.
    + intros _. eexists. reflexivity.
    + intros [text H]. discriminate.
    + intros [H|H]; [discriminate|].
      destruct (proj2 L H) as [lines E]. discriminate.
Qed.

Lemma summary_returns_iff_witness :
  ~ exists text,
      summary rejecting_parser elided_container null_rate_result = Ok text.
Proof.
  intros H.
  apply (proj1 (summary_returns_iff rejecting_parser elided_container
                  null_rate_result eq_refl)) in H.
  destruct H as [H|H]; [discriminate|].
  destruct (H "disclose:return_rate" JNull) as [x Hx].
  - simpl. auto.
  - reflexivity.
  - discriminate.
Defined.

(* ------------------------------------------------------------------ *)
(** ** What [score] depends on, and when it raises *)

Lemma score_step_agree (float_of_str : string -> option float)
    (s1 s2 : dict) (acc : float * float) (key : string) (mw : float * float) :
  scored_value s1 key = scored_value s2 key ->
  score_step float_of_str s1 acc (key, mw)
  = score_step float_of_str s2 acc (key, mw).
Proof.
  unfold scored_value, score_step. destruct mw as [max_val w], acc as [sc tw].
  destruct (dict_get key s1) as [[]|], (dict_get key s2) as [[]|];
    intros H; try discriminate H; try reflexivity;
    injection H as <-; reflexivity.
Qed.

Lemma score_loop_agree (float_of_str : string -> option float)
    (s1 s2 : dict) (entries : list (string * (float * float)))
    (acc : float * float) :
  (forall k, In k (map fst entries) -> scored_value s1 k = scored_value s2 k) ->
  score_loop float_of_str s1 entries acc
  = score_loop float_of_str s2 entries acc.
Proof.
  revert acc.
  induction entries as [|[key mw] rest IH]; intros acc H; [reflexivity|].
  cbn [score_loop].
  rewrite (score_step_agree float_of_str s1 s2 acc key mw) by (apply H; now left).
  destruct (score_step float_of_str s2 acc (key, mw)) as [acc'|e];
    [|reflexivity].
  cbn [bind]. apply IH. intros k Hk. apply H. now right.
Qed.

(** X15: the score depends on the signals only through the four scored
    keys, and a scored key bound to [null] counts as absent: two results
    that agree on the non-null values of the four keys have the same
    score (or raise the same exception). *)
Theorem score_depends_on_scored_keys (float_of_str : string -> option float)
    (self other : DiscloseSignals) :
  (forall k, In k scored_keys ->
     scored_value (signals self) k = scored_value (signals other) k) ->
  score float_of_str self = score float_of_str other.
Proof.
  intros H. unfold score.
  now rewrite (score_loop_agree float_of_str (signals self) (signals other)
                 weights (0%float, 0%float) H).
Qed.

Lemma score_depends_on_scored_keys_witness :
  score rejecting_parser null_rate_result
  = score rejecting_parser annotated_result.
Proof.
  apply score_depends_on_scored_keys.
  simpl. intros k [<-|[<-|[<-|[<-|[]]]]]; reflexivity.
Defined.

Lemma score_step_scored_value (float_of_str : string -> option float)
    (signals : dict) (sc tw : float) (key : string) (max_val w : float) :
  score_step float_of_str signals (sc, tw) (key, (max_val, w))
  = match scored_value signals key with
    | None => Ok (sc, tw)
    | Some val =>
        x <- py_float float_of_str val ;;
        Ok (if PrimFloat.ltb w 0
            then sc + PrimFloat.abs w * (1 - x / max_val)
            else sc + w * (x / max_val),
            tw + PrimFloat.abs w)%float
    end.
Proof.
  unfold score_step, scored_value.
  destruct (dict_get key signals) as [[]|]; reflexivity.
Qed.

Lemma score_loop_raises (float_of_str : string -> option float)
    (signals : dict) (entries : list (string * (float * float)))
    (acc : float * float) :
  (exists e, score_loop float_of_str signals entries acc = Raise e)
  <-> (exists k v e,
         In k (map fst entries)
         /\ scored_value signals k = Some v
         /\ py_float float_of_str v = Raise e).
Proof.
  revert acc.
  induction entries as [|[key [max_val w]] rest IH]; intros [sc tw].
  - split; [intros [e H]; discriminate | intros [k [v [e [[] _]]]]].
  - cbn [score_loop map fst]. rewrite score_step_scored_value.
    destruct (scored_value signals key) as [val|] eqn:E.
    + destruct (py_float float_of_str val) as [x|ex] eqn:F; cbn [bind].
      * rewrite IH. split; intros [k [v [e [Hin [Hv He]]]]].
        -- exists k, v, e. split; [now right | now split].
        -- destruct Hin as [<-|Hin].
           ++ rewrite E in Hv. injection Hv as <-. rewrite F in He.
              discriminate.
           ++ exists k, v, e. now repeat split.
      * split; [intros _ | intros _; eexists; reflexivity].
        exists key, val, ex. split; [now left | now split].
    + cbn [bind]. rewrite IH. split; intros [k [v [e [Hin [Hv He]]]]].
      * exists k, v, e. split; [now right | now split].
      * destruct Hin as [<-|Hin].
        -- rewrite E in Hv. discriminate.
        -- exists k, v, e. now repeat split.
Qed.

(** X16: [score] raises exactly when one of the four scored keys is bound
    to a value other than [null] that [float()] rejects (a list, an
    object, an unparsable string, an integer beyond the float range);
    values under any other key never make it raise. *)
Theorem score_raises_iff (float_of_str : string -> option float)
    (self : DiscloseSignals) :
  (exists e, score float_of_str self = Raise e)
  <-> (exists k v e,
         In k scored_keys
         /\ scored_value (signals self) k = Some v
         /\ py_float float_of_str v = Raise e).
Proof.
  rewrite <- (score_loop_raises float_of_str (signals self) weights
                (0%float, 0%float)).
  unfold score.
  destruct (score_loop float_of_str (signals self) weights (0%float, 0%float))
    as [[sc tw]|e]; cbn [bind].
  - split; intros [e H]; discriminate.
  - split; intros _; eexists; reflexivity.
Qed.

(* ------------------------------------------------------------------ *)
(** ** Requested keys that are not a list *)

Lemma comprehension_str (wanted : string) (items acc : dict) :
  comprehension (JStr wanted) items acc
  = Ok (fold_left
          (fun a kv =>
             if PyStr.contains wanted (fst kv)
             then dict_set (fst kv) (snd kv) a else a)
          items acc).
Proof.
  revert acc.
  induction items as [|[k v] t IH]; intros acc; [reflexivity|].
  cbn [comprehension py_contains bind fold_left fst snd]. apply IH.
Qed.

(** X17: the requested keys reach the filter unchecked.  Given as one
    non-empty string they select the extracted keys that occur in it as
    substrings; given as a non-zero number or [true] they make the filter
    raise [TypeError] as soon as one signal was extracted, and leave the
    empty mapping alone. *)
Theorem filter_signals_not_a_list (all_signals : dict) :
  unique_keys all_signals ->
  (forall s, s <> "" ->
     exists filtered,
       filter_signals (JStr s) all_signals = Ok filtered
       /\ forall k,
            dict_get k filtered
            = if PyStr.contains s k then dict_get k all_signals else None)
  /\ (forall wanted,
        truthy wanted = true ->
        (exists b, wanted = JBool b) \/ (exists z, wanted = JInt z)
        \/ (exists x, wanted = JFloat x) ->
        filter_signals wanted all_signals
        = match all_signals with
          | [] => Ok []
          | _ => Raise TypeError
          end).
Proof.
  intros Hu. split.
  - intros s Hs. unfold filter_signals. cbn [truthy].
    destruct (String.eqb_spec s "") as [E|_]; [contradiction|]. cbn [negb].
    rewrite comprehension_str. eexists. split; [reflexivity|].
    intros k.
    rewrite (select_get (fun key => PyStr.contains s key) k all_signals []).
    rewrite (last_value_unique k _ Hu). cbn [dict_get].
    destruct (PyStr.contains s k); [|reflexivity].
    destruct (dict_get k all_signals); reflexivity.
  - intros wanted Ht H. unfold filter_signals. rewrite Ht.
    destruct all_signals as [|[k v] t]; [reflexivity|].
    destruct H as [[b ->]|[[z ->]|[x ->]]]; reflexivity.
Qed.

Lemma filter_signals_not_a_list_witness :
  filter_signals (JInt 5) (signals rated_result) = Raise TypeError.
Proof.
  refine (proj2 (filter_signals_not_a_list (signals rated_result) _)
            (JInt 5) eq_refl _).
  - unfold unique_keys. simpl.
    repeat (constructor; [simpl; intuition discriminate|]). constructor.
  - right. left. now exists 5%Z.
Defined.

(* ------------------------------------------------------------------ *)
(** ** The command-line demo *)

(** X18: when the request fails the demo opens the target URL of its
    domain (the first argument, [example-merchant.com] without one),
    prints the heading and then the summary of the failed result that
    [fetch_signals] returned, prints no score line, and returns. *)
Theorem main_after_failure (float_of_str : string -> option float)
    (str_of_container : json -> string) (net : network) (argv : list string)
    (domain : string) :
  domain = match argv with
           | _ :: first :: _ => first
           | _ => "example-merchant.com"
           end ->
  (forall raw, net (target_url domain) <> Loaded raw) ->
  exists message text,
    snd (fetch_signals net domain JNull)
    = Ok (failed (normalize_domain domain) message)
    /\ summary float_of_str str_of_container
         (failed (normalize_domain domain) message)
       = Ok text
    /\ main float_of_str str_of_container net argv
       = mkRun [target_url domain]
           ["Fetching Disclose signals for: " ++ domain ++ newline; text]
           Returned.
Proof.
  intros Hd Hnet. unfold main. rewrite <- Hd.
  destruct (fetch_signals_failure net domain JNull Hnet) as [msg Hm].
  exists msg.
  destruct (fetch_signals net domain JNull) as [opened fetched] eqn:E.
  assert (Ho : opened = [target_url domain]).
  { unfold fetch_signals in E. now injection E as <- _. }
  cbn [snd] in Hm. subst fetched opened.
  assert (S : score float_of_str (failed (normalize_domain domain) msg)
              = Ok None) by reflexivity.
  rewrite S.
  destruct msg as [|a m].
  - unfold failed.
    rewrite (summary_nothing float_of_str str_of_container _ _ (Some ""))
      by exact I.
    eexists. repeat split.
  - eexists. repeat split.
Qed.

Lemma main_after_failure_witness :
  exists message text,
    snd (fetch_signals (always (HTTPError 503)) "example-merchant.com" JNull)
    = Ok (failed (normalize_domain "example-merchant.com") message)
    /\ summary rejecting_parser elided_container
         (failed (normalize_domain "example-merchant.com") message)
       = Ok text
    /\ main rejecting_parser elided_container (always (HTTPError 503))
         ["disclose_tool.py"]
       = mkRun [target_url "example-merchant.com"]
           ["Fetching Disclose signals for: " ++ "example-merchant.com"
              ++ newline;
            text]
           Returned.
Proof.
  apply (main_after_failure rejecting_parser elided_container
           (always (HTTPError 503)) ["disclose_tool.py"] "example-merchant.com").
  - reflexivity.
  - discriminate.
Defined.

(* ------------------------------------------------------------------ *)
(** ** The agent loop *)

Section Agent.

Variable float_of_str : string -> option float.
Variable str_of_container : json -> string.
Variable net : network.

Let handle := handle_tool_call float_of_str str_of_container net.
Let tools := call_tools float_of_str str_of_container net.
Let loop := fun fuel api => agent_loop float_of_str str_of_container fuel api net.

Lemma handle_opened (name : string) (input : dict) (url : string) :
  In url (fst (handle name input)) ->
  name = "fetch_merchant_trust_signals"
  /\ exists domain,
       dict_get "merchant_domain" input = Some (JStr domain)
       /\ url = target_url domain.
Proof.
  unfold handle, handle_tool_call.
  destruct (String.eqb_spec name "fetch_merchant_trust_signals") as [->|_];
    cbn [negb]; [|intros []].
  destruct (dict_get "merchant_domain" input) as [[| | | |domain| |]|];
    try (intros []; fail).
  unfold fetch_signals. cbn [fst In].
  intros [<-|[]]. split; [reflexivity|]. now exists domain.
Qed.

(** X19: in a round whose tool calls all return, the tool results are one
    per tool-use block, in block order and under the block's [id]; each
    holds the text the handler returned for the block's name and input;
    two lines are printed per call. *)
Theorem call_tools_results (blocks : list block) (opened printed : list string)
    (results : list (string * string)) :
  tools blocks = (opened, printed, Ok results) ->
  map fst results = tool_use_ids blocks
  /\ (forall id text,
        In (id, text) results ->
        exists name input,
          In (ToolUseBlock id name input) blocks
          /\ snd (handle name input) = Ok text)
  /\ List.length printed = (2 * List.length results)%nat.
Proof.
  unfold tools, handle. revert opened printed results.
  induction blocks as [|b rest IH]; intros opened printed results H.
  - injection H as <- <- <-. repeat split. intros id text [].
  - destruct b as [text|id name input|]; cbn [call_tools] in H.
    + destruct (IH _ _ _ H) as [A [B C]]. repeat split; try assumption.
      intros id txt Hin. destruct (B id txt Hin) as [name [input [Hb Hh]]].
      exists name, input. split; [now right | exact Hh].
    + destruct (handle_tool_call float_of_str str_of_container net name input)
        as [o called] eqn:E.
      destruct called as [text|e]; [|discriminate].
      destruct (call_tools float_of_str str_of_container net rest)
        as [[o' p'] r'] eqn:R.
      destruct r' as [rs|e]; [|discriminate].
      cbn [bind] in H. injection H as <- <- <-.
      destruct (IH _ _ _ eq_refl) as [A [B C]].
      repeat split.
      * cbn [map fst tool_use_ids flat_map app]. f_equal. exact A.
      * intros id' txt [[= <- <-]|Hin].
        -- exists name, input. split; [now left | now rewrite E].
        -- destruct (B id' txt Hin) as [n [i [Hb Hh]]].
           exists n, i. split; [now right | exact Hh].
      * cbn [List.length]. rewrite C. lia.
    + destruct (IH _ _ _ H) as [A [B C]]. repeat split; try assumption.
      intros id txt Hin. destruct (B id txt Hin) as [name [input [Hb Hh]]].
      exists name, input. split; [now right | exact Hh].
Qed.

(** X20: a response whose stop reason is not ["tool_use"] ends the loop
    at once: its texts are printed, its tool-use blocks (if any) are not
    called, no URL is opened and the conversation is left as it was. *)
Theorem agent_loop_stops (fuel : nat) (api : client) (messages : list message) :
  stop_reason (api messages) <> "tool_use" ->
  loop (S fuel) api messages
  = mkAgentRun messages [] (spoken (content (api messages))) Returned.
Proof.
  intros H. unfold loop. cbn [agent_loop].
  destruct (String.eqb (stop_reason (api messages)) "end_turn");
    [reflexivity|].
  destruct (String.eqb_spec (stop_reason (api messages)) "tool_use");
    [contradiction | reflexivity].
Qed.

(** X21: the conversation only grows, by whole rounds: after any number
    of iterations it is the conversation the loop started with, followed
    by rounds; each round is the assistant turn holding the blocks of the
    model's reply to the conversation before it, a reply with stop reason
    ["tool_use"], and then the tool results the tool calls returned for
    these blocks. *)
Theorem agent_loop_conversation (fuel : nat) (api : client)
    (messages : list message) :
  exists tail,
    agent_messages (loop fuel api messages) = (messages ++ tail)%list
    /\ rounds_of float_of_str str_of_container net api messages tail.
Proof.
  unfold loop. revert messages.
  induction fuel as [|fuel IH]; intros messages.
  - exists []. split; [now rewrite app_nil_r | exact I].
  - cbn [agent_loop].
    destruct (String.eqb (stop_reason (api messages)) "end_turn");
      [exists []; split; [now rewrite app_nil_r | exact I]|].
    destruct (String.eqb_spec (stop_reason (api messages)) "tool_use")
      as [Hs|_];
      [|exists []; split; [now rewrite app_nil_r | exact I]].
    destruct (call_tools float_of_str str_of_container net
                (content (api messages))) as [[opened printed] results] eqn:E.
    destruct results as [rs|e];
      [|exists []; split; [now rewrite app_nil_r | exact I]].
    destruct (IH (messages ++ [AssistantMessage (content (api messages));
                               ToolResults rs])%list) as [tail [Ht Hr]].
    exists ([AssistantMessage (content (api messages)); ToolResults rs]
              ++ tail)%list.
    cbn [agent_messages]. split; [now rewrite Ht, <- app_assoc|].
    cbn [app rounds_of]. rewrite E. cbn [snd]. auto.
Qed.

Lemma call_tools_opened (blocks : list block) (url : string) :
  In url (fst (fst (tools blocks))) ->
  exists id input domain,
    In (ToolUseBlock id "fetch_merchant_trust_signals" input) blocks
    /\ dict_get "merchant_domain" input = Some (JStr domain)
    /\ url = target_url domain.
Proof.
  unfold tools.
  induction blocks as [|b rest IH]; [intros []|].
  assert (R : In url (fst (fst (call_tools float_of_str str_of_container net
                                  rest))) ->
              exists id input domain,
                In (ToolUseBlock id "fetch_merchant_trust_signals" input)
                  (b :: rest)
                /\ dict_get "merchant_domain" input = Some (JStr domain)
                /\ url = target_url domain).
  { intros H. destruct (IH H) as [id [input [domain [Hb Hd]]]].
    exists id, input, domain. split; [now right | exact Hd]. }
  destruct b as [text|id name input|]; cbn [call_tools]; try exact R.
  pose proof (handle_opened name input url) as Ho. unfold handle in Ho.
  assert (H0 : In url (fst (handle_tool_call float_of_str str_of_container net
                              name input)) ->
               exists id0 input0 domain,
                 In (ToolUseBlock id0 "fetch_merchant_trust_signals" input0)
                   (ToolUseBlock id name input :: rest)
                 /\ dict_get "merchant_domain" input0 = Some (JStr domain)
                 /\ url = target_url domain).
  { intros H. destruct (Ho H) as [-> [domain Hd]].
    exists id, input, domain. split; [now left | exact Hd]. }
  destruct (handle_tool_call float_of_str str_of_container net name input)
    as [o called].
  destruct called as [text|e]; [|exact H0].
  destruct (call_tools float_of_str str_of_container net rest)
    as [[o' p'] r'].
  cbn [fst] in *. intros Hin. apply in_app_or in Hin.
  destruct Hin as [Hin|Hin]; [now apply H0 | now apply R].
Qed.

(** X22: every URL that the tool calls of the agent open is the target
    URL of a domain the model asked for: the string under
    [merchant_domain] in the input of a tool-use block that names
    [fetch_merchant_trust_signals], in the model's reply to the
    conversation the loop started with or to an extension of it. *)
Theorem agent_loop_opened (fuel : nat) (api : client) (messages : list message)
    (url : string) :
  In url (agent_opened (loop fuel api messages)) ->
  exists tail id input domain,
    In (ToolUseBlock id "fetch_merchant_trust_signals" input)
      (content (api (messages ++ tail)%list))
    /\ dict_get "merchant_domain" input = Some (JStr domain)
    /\ url
       = "https://" ++ normalize_domain domain ++ "/.well-known/disclose.json".
Proof.
  unfold loop. revert messages.
  induction fuel as [|fuel IH]; intros messages; [intros []|].
  cbn [agent_loop].
  destruct (String.eqb (stop_reason (api messages)) "end_turn"); [intros []|].
  destruct (String.eqb (stop_reason (api messages)) "tool_use"); [|intros []].
  pose proof (call_tools_opened (content (api messages)) url) as Ho.
  unfold tools in Ho.
  assert (H0 : In url (fst (fst (call_tools float_of_str str_of_container net
                                   (content (api messages))))) ->
               exists tail id input domain,
                 In (ToolUseBlock id "fetch_merchant_trust_signals" input)
                   (content (api (messages ++ tail)%list))
                 /\ dict_get "merchant_domain" input = Some (JStr domain)
                 /\ url = "https://" ++ normalize_domain domain
                            ++ "/.well-known/disclose.json").
  { intros H. destruct (Ho H) as [id [input [domain [Hb [Hd Hu]]]]].
    exists [], id, input, domain. rewrite app_nil_r. auto. }
  destruct (call_tools float_of_str str_of_container net
              (content (api messages))) as [[opened printed] results].
  cbn [fst] in H0.
  destruct results as [rs|e]; cbn [agent_opened]; [|exact H0].
  intros Hin. apply in_app_or in Hin.
  destruct Hin as [Hin|Hin]; [now apply H0|].
  destruct (IH _ Hin) as [tail [id [input [domain H]]]].
  exists ([AssistantMessage (content (api messages)); ToolResults rs]
            ++ tail)%list, id, input, domain.
  now rewrite app_assoc.
Qed.

Lemma call_tools_raises (blocks : list block) (id name : string) (input : dict)
    (e : exn) :
  In (ToolUseBlock id name input) blocks ->
  snd (handle name input) = Raise e ->
  exists e', snd (tools blocks) = Raise e'.
Proof.
  unfold tools, handle.
  induction blocks as [|b rest IH]; [intros []|].
  intros Hin Hh.
  assert (R : In (ToolUseBlock id name input) rest ->
              exists e', snd (call_tools float_of_str str_of_container net rest)
                         = Raise e') by (intros H; now apply IH).
  destruct b as [text|id0 name0 input0|]; cbn [call_tools].
  - destruct Hin as [Hin|Hin]; [discriminate | now apply R].
  - destruct (handle_tool_call float_of_str str_of_container net name0 input0)
      as [o called] eqn:E.
    destruct called as [text|e0]; [|now exists e0].
    destruct Hin as [[= -> -> ->]|Hin].
    + rewrite E in Hh. discriminate.
    + destruct (R Hin) as [e' He'].
      destruct (call_tools float_of_str str_of_container net rest)
        as [[o' p'] r'].
      cbn [snd] in *. subst r'. now exists e'.
  - destruct Hin as [Hin|Hin]; [discriminate | now apply R].
Qed.

(** X23: when, in a tool-use response, the handler raises for one of the
    tool-use blocks, the whole run ends with an exception and the
    conversation is left as it was: no tool result is recorded, not even
    for the blocks handled before. *)
Theorem agent_loop_tool_failure (fuel : nat) (api : client)
    (messages : list message) (id name : string) (input : dict) (e : exn) :
  stop_reason (api messages) = "tool_use" ->
  In (ToolUseBlock id name input) (content (api messages)) ->
  snd (handle name input) = Raise e ->
  exists e',
    agent_end (loop (S fuel) api messages) = Raised e'
    /\ agent_messages (loop (S fuel) api messages) = messages.
Proof.
  intros Hs Hin Hh. unfold loop. cbn [agent_loop]. rewrite Hs.
  cbn [String.eqb Ascii.eqb Bool.eqb].
  destruct (call_tools_raises _ id name input e Hin Hh) as [e' He'].
  unfold tools in He'.
  destruct (call_tools float_of_str str_of_container net
              (content (api messages))) as [[opened printed] results].
  cbn [snd] in He'. subst results. exists e'. split; reflexivity.
Qed.

End Agent.

Lemma call_tools_results_witness :
  map fst
    [("toolu_1",
      "[Disclose] Could not retrieve signals for shop.example: HTTP 404: merchant may not support Disclose Framework")]
  = tool_use_ids (content (scripted [UserMessage "Which shop?"]))
  /\ (forall id text,
        In (id, text)
          [("toolu_1",
            "[Disclose] Could not retrieve signals for shop.example: HTTP 404: merchant may not support Disclose Framework")] ->
        exists name input,
          In (ToolUseBlock id name input)
            (content (scripted [UserMessage "Which shop?"]))
          /\ snd (handle_tool_call rejecting_parser elided_container
                    (always (HTTPError 404)) name input)
             = Ok text)
  /\ List.length
       [newline ++ "[Fetching Disclose signals for: https://shop.example/]";
        "[Disclose] Could not retrieve signals for shop.example: HTTP 404: merchant may not support Disclose Framework"]
     = (2 * List.length
              [("toolu_1",
                "[Disclose] Could not retrieve signals for shop.example: HTTP 404: merchant may not support Disclose Framework")])%nat.
Proof.
  apply (call_tools_results rejecting_parser elided_container
           (always (HTTPError 404))
           (content (scripted [UserMessage "Which shop?"]))
           [target_url "https://shop.example/"]).
  reflexivity.
Defined.

Lemma agent_loop_stops_witness :
  agent_loop rejecting_parser elided_container 3 truncated
    (always JSONDecodeError) [UserMessage "Which shop?"]
  = mkAgentRun [UserMessage "Which shop?"] []
      (spoken (content (truncated [UserMessage "Which shop?"]))) Returned.
Proof.
  apply (agent_loop_stops rejecting_parser elided_container
           (always JSONDecodeError) 2 truncated [UserMessage "Which shop?"]).
  discriminate.
Defined.

Lemma agent_loop_opened_witness :
  exists tail id input domain,
    In (ToolUseBlock id "fetch_merchant_trust_signals" input)
      (content (scripted ([UserMessage "Which shop?"] ++ tail)%list))
    /\ dict_get "merchant_domain" input = Some (JStr domain)
    /\ "https://shop.example/.well-known/disclose.json"
       = "https://" ++ normalize_domain domain ++ "/.well-known/disclose.json".
Proof.
  apply (agent_loop_opened rejecting_parser elided_container
           (always (HTTPError 404)) 3 scripted [UserMessage "Which shop?"]).
  simpl. left. reflexivity.
Defined.

Lemma agent_loop_tool_failure_witness :
  exists e',
    agent_end
      (agent_loop rejecting_parser elided_container 3 scripted
         (always (Loaded (JObj [("disclose:verifier", JStr "acme-audit")])))
         [UserMessage "Which shop?"])
    = Raised e'
    /\ agent_messages
         (agent_loop rejecting_parser elided_container 3 scripted
            (always (Loaded (JObj [("disclose:verifier", JStr "acme-audit")])))
            [UserMessage "Which shop?"])
       = [UserMessage "Which shop?"].
Proof.
  apply (agent_loop_tool_failure rejecting_parser elided_container
           (always (Loaded (JObj [("disclose:verifier", JStr "acme-audit")])))
           2 scripted [UserMessage "Which shop?"]
           "toolu_1" "fetch_merchant_trust_signals" shop_input AttributeError).
  - reflexivity.
  - simpl. auto.
  - reflexivity.
Defined.
